(** * SGNL content extractor: a shallow embedding of [app/extractor.py]

    The development follows the layout of the Python module:

    - [PyStr]     the [str] methods and the pieces of [re] and
                  [urllib.parse] that the extractor calls;
    - [Arith]     the arithmetic of Python numbers, once as IEEE-754
                  binary64 (what CPython's [float] is) and once as exact
                  rationals (the reading of the formulas on paper);
    - [World]     the collaborators the module imports or reaches over the
                  network (httpx, trafilatura, ideadensity, textstat, the
                  process environment);
    - the metric adapters, the density combiner, [ContentExtractor];
    - the structural analyzer, whose source file is not part of the tree
      and which is therefore written down from its specification;
    - the analytics middleware ([app/analytics_middleware.py]), the
      counters of the benchmark ([benchmark.py]) and the timing table of
      the profiler ([profile_code.py]).

    Strings are sequences of 8-bit characters, the UTF-8 bytes of the
    Python text: a byte below 128 is an ASCII character, and a text is
    ASCII when all its bytes are.  Blanks, digits and letters are the
    ASCII ones. *)

From Stdlib Require Import ZArith QArith Qround Lia Bool Ascii String.
From Stdlib Require Import Floats.SpecFloat Floats.PrimFloat Floats.FloatOps.
From stdpp Require Import base option list strings gmap sorting pretty.

Local Open Scope string_scope.
Local Open Scope Z_scope.

(** ** Python strings *)

Module PyStr.

(** [str.isspace] on one ASCII character: TAB..CR, FS..US and SPACE. *)
Definition isspace (c : ascii) : bool :=
  let n := nat_of_ascii c in
  (((9 <=? n) && (n <=? 13)) || ((28 <=? n) && (n <=? 32)))%nat.

Definition isdigit (c : ascii) : bool :=
  let n := nat_of_ascii c in ((48 <=? n) && (n <=? 57))%nat.

Definition isupper (c : ascii) : bool :=
  let n := nat_of_ascii c in ((65 <=? n) && (n <=? 90))%nat.

Definition isalpha (c : ascii) : bool :=
  let n := nat_of_ascii c in
  (((65 <=? n) && (n <=? 90)) || ((97 <=? n) && (n <=? 122)))%nat.

Definition lower_char (c : ascii) : ascii :=
  if isupper c then ascii_of_nat (nat_of_ascii c + 32) else c.

(** [s.lower()] *)
Fixpoint lower (s : string) : string :=
  match s with
  | EmptyString => EmptyString
  | String c r => String (lower_char c) (lower r)
  end.

Definition is_empty (s : string) : bool :=
  match s with EmptyString => true | _ => false end.

(** [s.lstrip()], [s.rstrip()], [s.strip()] without arguments *)
Fixpoint lstrip (s : string) : string :=
  match s with
  | EmptyString => EmptyString
  | String c r => if isspace c then lstrip r else s
  end.

Fixpoint rstrip (s : string) : string :=
  match s with
  | EmptyString => EmptyString
  | String c r =>
      let r' := rstrip r in
      if isspace c && is_empty r' then EmptyString else String c r'
  end.

Definition strip (s : string) : string := rstrip (lstrip s).

(** [s.split()] without arguments: the maximal runs of non-blank
    characters, in order.  [cur] is the run being read. *)
Fixpoint split_from (cur : string) (s : string) : list string :=
  match s with
  | EmptyString => if is_empty cur then [] else [cur]
  | String c r =>
      if isspace c
      then (if is_empty cur then split_from EmptyString r
            else cur :: split_from EmptyString r)
      else split_from (cur ++ String c EmptyString) r
  end.

Definition split (s : string) : list string := split_from EmptyString s.

(** [s.startswith(p)] *)
Fixpoint startswith (p s : string) : bool :=
  match p, s with
  | EmptyString, _ => true
  | String a p', String b s' => Ascii.eqb a b && startswith p' s'
  | String _ _, EmptyString => false
  end.

(** [p in s] for strings *)
Fixpoint contains (p s : string) : bool :=
  startswith p s ||
  match s with
  | EmptyString => false
  | String _ r => contains p r
  end.

(** [c in s] for one character *)
Fixpoint has_char (c : ascii) (s : string) : bool :=
  match s with
  | EmptyString => false
  | String a r => Ascii.eqb a c || has_char c r
  end.

Fixpoint drop (n : nat) (s : string) : string :=
  match n, s with
  | O, _ => s
  | S n', String _ r => drop n' r
  | S _, EmptyString => EmptyString
  end.

Fixpoint take (n : nat) (s : string) : string :=
  match n, s with
  | S n', String c r => String c (take n' r)
  | _, _ => EmptyString
  end.

(** [s.replace(old, new)] for a non-empty [old]: the occurrences are
    found left to right and do not overlap.  [skip] counts the characters
    of the occurrence just replaced that are still to be passed over. *)
Fixpoint replace_from (old new : string) (skip : nat) (s : string) : string :=
  match s with
  | EmptyString => EmptyString
  | String c r =>
      match skip with
      | S k => replace_from old new k r
      | O =>
          if startswith old s
          then new ++ replace_from old new (String.length old - 1) r
          else String c (replace_from old new O r)
      end
  end.

Definition replace (old new s : string) : string := replace_from old new O s.

(** [s.find(c)] for one character: the suffix starting at the first [c] *)
Fixpoint break_at (stop : ascii -> bool) (s : string) : string * string :=
  match s with
  | EmptyString => (EmptyString, EmptyString)
  | String c r =>
      if stop c then (EmptyString, s)
      else let '(a, b) := break_at stop r in (String c a, b)
  end.

Fixpoint forallb_str (p : ascii -> bool) (s : string) : bool :=
  match s with
  | EmptyString => true
  | String c r => p c && forallb_str p r
  end.

(** [s.isascii()] *)
Definition isascii_char (c : ascii) : bool := (nat_of_ascii c <? 128)%nat.

Definition isascii (s : string) : bool := forallb_str isascii_char s.

End PyStr.

(** ** The fragment of [re] used by the extractor

    A backtracking matcher with ordered alternation and greedy bounded
    repetition, which is how CPython's [re] explores a pattern.  A match
    is described by the text left after it and by the text of the last
    capture of the (single) group. *)

Module Re.

Inductive regex : Type :=
| Eps
| Chr (c : ascii)                       (* a literal character *)
| Cls (p : ascii -> bool)               (* a character class *)
| Seq (r1 r2 : regex)
| Alt (r1 r2 : regex)
| Rep (r : regex) (lo : nat) (hi : option nat)   (* greedy r{lo,hi} *)
| Grp (r : regex).                      (* capturing group *)

Definition below (hi : option nat) (n : nat) : bool :=
  match hi with
  | None => true
  | Some h => (n <? h)%nat
  end.

Definition same_char (ignorecase : bool) (a c : ascii) : bool :=
  if ignorecase
  then Ascii.eqb (PyStr.lower_char a) (PyStr.lower_char c)
  else Ascii.eqb a c.

Definition cont : Type := string -> option string -> option (string * option string).

(** [run i r s g k]: match [r] at the start of [s], then continue with
    [k] on what is left; [g] is the current capture. *)
Fixpoint run (ignorecase : bool) (r : regex) (s : string) (g : option string)
    (k : cont) {struct r} : option (string * option string) :=
  match r with
  | Eps => k s g
  | Chr c =>
      match s with
      | String a s' => if same_char ignorecase a c then k s' g else None
      | EmptyString => None
      end
  | Cls p =>
      match s with
      | String a s' => if p a then k s' g else None
      | EmptyString => None
      end
  | Seq r1 r2 => run ignorecase r1 s g (fun s' g' => run ignorecase r2 s' g' k)
  | Alt r1 r2 =>
      match run ignorecase r1 s g k with
      | Some m => Some m
      | None => run ignorecase r2 s g k
      end
  | Rep r1 lo hi =>
      (fix loop (fuel n : nat) (s : string) (g : option string) {struct fuel} :=
         let stop := if (lo <=? n)%nat then k s g else None in
         match fuel with
         | O => stop
         | S fuel' =>
             if below hi n
             then match run ignorecase r1 s g
                          (fun s' g' =>
                             if (String.length s' <? String.length s)%nat
                             then loop fuel' (S n) s' g' else None) with
                  | Some m => Some m
                  | None => stop
                  end
             else stop
         end) (S (String.length s)) O s g
  | Grp r1 =>
      run ignorecase r1 s g
          (fun s' _ =>
             k s' (Some (PyStr.take (String.length s - String.length s') s)))
  end.

(** [re.match]: a match anchored at the start of [s] *)
Definition match_here (ignorecase : bool) (r : regex) (s : string)
  : option (string * option string) :=
  run ignorecase r s None (fun s' g => Some (s', g)).

(** [re.search]: the leftmost match, as the capture of its group *)
Fixpoint search (ignorecase : bool) (r : regex) (s : string)
  : option (option string) :=
  match match_here ignorecase r s with
  | Some (_, g) => Some g
  | None =>
      match s with
      | EmptyString => None
      | String _ s' => search ignorecase r s'
      end
  end.

(** [len(re.findall(...))]: the matches are taken left to right and do
    not overlap; after an empty match the scan moves on by one character. *)
Fixpoint count_from (ignorecase : bool) (r : regex) (fuel : nat) (s : string) : nat :=
  match fuel with
  | O => O
  | S fuel' =>
      let next := match s with
                  | EmptyString => O
                  | String _ s' => count_from ignorecase r fuel' s'
                  end in
      match match_here ignorecase r s with
      | Some (s', _) =>
          if (String.length s' <? String.length s)%nat
          then S (count_from ignorecase r fuel' s')
          else S next
      | None => next
      end
  end.

Definition findall_count (ignorecase : bool) (r : regex) (s : string) : nat :=
  count_from ignorecase r (S (String.length s)) s.

(** Pattern combinators *)
Fixpoint lit (s : string) : regex :=
  match s with
  | EmptyString => Eps
  | String c EmptyString => Chr c
  | String c r => Seq (Chr c) (lit r)
  end.

Definition plus (r : regex) : regex := Rep r 1 None.
Definition star (r : regex) : regex := Rep r 0 None.
Definition ws : regex := Cls PyStr.isspace.            (* \s *)
Definition digit : regex := Cls PyStr.isdigit.         (* \d *)
Definition non (c : ascii) : regex := Cls (fun a => negb (Ascii.eqb a c)).   (* [^c] *)

Fixpoint alts (rs : list regex) : regex :=
  match rs with
  | [] => Cls (fun _ => false)
  | [r] => r
  | r :: rs' => Alt r (alts rs')
  end.

Fixpoint seqs (rs : list regex) : regex :=
  match rs with
  | [] => Eps
  | [r] => r
  | r :: rs' => Seq r (seqs rs')
  end.

(** words separated by [\s+], the shape of every spam pattern *)
Fixpoint words (ws_sep : list string) : regex :=
  match ws_sep with
  | [] => Eps
  | [w] => lit w
  | w :: rest => Seq (lit w) (Seq (plus ws) (words rest))
  end.

End Re.

(** ** [urllib.parse.urlsplit]

    CPython's algorithm (as of 3.11): leading control characters and
    blanks are stripped, TAB/CR/LF are removed, a scheme is split off when
    the text before the first colon is a valid scheme, and a network
    location is read only after a double slash.  [None] stands for the
    [ValueError] that [urlsplit] raises: on a malformed bracketed host, and
    on a network location outside ASCII whose NFKC form brings in one of
    the delimiters [/?#@:].  The validation of the text between the
    brackets belongs to the [ipaddress] module and the normal form to
    [unicodedata]: both are parameters, [bracketed_host_ok] and
    [nfkc_normalize].  ([urlparse] is [urlsplit] followed by a split of the
    path parameters, which leaves the network location alone.) *)

Module Url.

Record SplitResult : Type := mkSplit {
  scheme : string;
  netloc : string;
  path : string;
  query : string;
  fragment : string
}.

Definition c0_or_space (c : ascii) : bool := (nat_of_ascii c <=? 32)%nat.

Fixpoint lstrip_c0 (s : string) : string :=
  match s with
  | EmptyString => EmptyString
  | String c r => if c0_or_space c then lstrip_c0 r else s
  end.

Definition unsafe_byte (c : ascii) : bool :=
  let n := nat_of_ascii c in ((n =? 9) || (n =? 10) || (n =? 13))%nat.

Fixpoint remove_unsafe (s : string) : string :=
  match s with
  | EmptyString => EmptyString
  | String c r => if unsafe_byte c then remove_unsafe r else String c (remove_unsafe r)
  end.

Definition scheme_char (c : ascii) : bool :=
  PyStr.isalpha c || PyStr.isdigit c || PyStr.has_char c "+-.".

(** the scheme and the rest of the url after its colon *)
Definition split_scheme (url : string) : string * string :=
  let '(pre, rest) := PyStr.break_at (Ascii.eqb ":") url in
  match pre, rest with
  | String c0 _, String _ after =>
      if PyStr.isalpha c0 && PyStr.forallb_str scheme_char pre
      then (PyStr.lower pre, after)
      else (EmptyString, url)
  | _, _ => (EmptyString, url)
  end.

(** [_splitnetloc(url, 2)]: up to the first of [/], [?], [#] *)
Definition splitnetloc (url : string) : string * string :=
  PyStr.break_at (fun c => PyStr.has_char c "/?#") (PyStr.drop 2 url).

(** [netloc.partition('[')[2].partition(']')[0]] *)
Definition bracketed_host (nl : string) : string :=
  let '(_, from_open) := PyStr.break_at (Ascii.eqb "[") nl in
  fst (PyStr.break_at (Ascii.eqb "]") (PyStr.drop 1 from_open)).

Definition split_on (c : ascii) (s : string) : string * string :=
  let '(a, b) := PyStr.break_at (Ascii.eqb c) s in (a, PyStr.drop 1 b).

Section Urlsplit.
Variable bracketed_host_ok : string -> bool.
Variable nfkc_normalize : string -> string.

(** [_checknetloc(netloc)]: [false] where it raises *)
Definition checknetloc (netloc : string) : bool :=
  if PyStr.is_empty netloc || PyStr.isascii netloc then true
  else
    let n := PyStr.replace "@" "" netloc in
    let n := PyStr.replace ":" "" n in
    let n := PyStr.replace "#" "" n in
    let n := PyStr.replace "?" "" n in
    let netloc2 := nfkc_normalize n in
    if String.eqb n netloc2 then true
    else negb (PyStr.has_char "/" netloc2 || PyStr.has_char "?" netloc2
               || PyStr.has_char "#" netloc2 || PyStr.has_char "@" netloc2
               || PyStr.has_char ":" netloc2).

Definition urlsplit (url0 : string) : option SplitResult :=
  let url := remove_unsafe (lstrip_c0 url0) in
  let '(sch, url) := split_scheme url in
  let after_netloc :=
    if PyStr.startswith "//" url then
      let '(nl, rest) := splitnetloc url in
      let has_open := PyStr.has_char "[" nl in
      let has_close := PyStr.has_char "]" nl in
      if (has_open && negb has_close) || (has_close && negb has_open) then None
      else if has_open && has_close && negb (bracketed_host_ok (bracketed_host nl))
           then None
           else Some (nl, rest)
    else Some (EmptyString, url) in
  match after_netloc with
  | None => None
  | Some (nl, url) =>
      let '(url, frag) := split_on "#" url in
      let '(url, qry) := split_on "?" url in
      if checknetloc nl then Some (mkSplit sch nl url qry frag) else None
  end.

End Urlsplit.
End Url.

(** ** Python numbers

    The extractor computes with [float] and with small [int]s that are
    turned into [float] when they meet one.  [Arith] is the signature of the
    operations it uses; [lit n d] is the literal whose decimal value is
    [n/d], so [lit 115 100] is the literal [1.15].  Every division of the
    module has a divisor that cannot be zero (the constant [90], a weight
    tested to be positive, the length of a non-empty list), so
    [ZeroDivisionError] has no place in the signature. *)

Record Arith : Type := mkArith {
  num : Type;
  lit : Z -> Z -> num;            (* decimal literal n/d, d a power of ten *)
  of_int : Z -> num;              (* float(i) *)
  int_div : Z -> Z -> num;        (* i / j on ints, j <> 0 *)
  add : num -> num -> num;
  sub : num -> num -> num;
  mul : num -> num -> num;
  div : num -> num -> num;        (* x / y, y <> 0 *)
  ltb : num -> num -> bool;       (* x < y *)
  leb : num -> num -> bool;       (* x <= y *)
  round_nd : num -> nat -> num    (* round(x, ndigits) *)
}.

(** *** IEEE-754 binary64: CPython's [float] *)

Module B64.

Definition prec : Z := 53.
Definition emax : Z := 1024.

Definition of_Z (z : Z) : spec_float := binary_normalize prec emax z 0 false.

(** the correctly rounded quotient of two integers *)
Definition quot (n d : Z) : spec_float :=
  match n, d with
  | Z0, _ => S754_zero false
  | _, Z0 => S754_nan
  | Zpos a, Zpos b => SFdiv prec emax (S754_finite false a 0) (S754_finite false b 0)
  | Zneg a, Zpos b => SFdiv prec emax (S754_finite true a 0) (S754_finite false b 0)
  | Zpos a, Zneg b => SFdiv prec emax (S754_finite false a 0) (S754_finite true b 0)
  | Zneg a, Zneg b => SFdiv prec emax (S754_finite true a 0) (S754_finite true b 0)
  end.

(** round half to even of the rational [n/d], [d > 0] *)
Definition round_half_even (n d : Z) : Z :=
  let q := n / d in
  let r := n mod d in
  match 2 * r ?= d with
  | Lt => q
  | Gt => q + 1
  | Eq => if Z.even q then q else q + 1
  end.

(** [round(x, ndigits)]: the double nearest to the decimal that is nearest
    to the exact value of [x]; non-finite values and zeros are returned
    as they are. *)
Definition round (x : spec_float) (ndigits : nat) : spec_float :=
  match x with
  | S754_finite s m e =>
      let p := 10 ^ Z.of_nat ndigits in
      let q := if 0 <=? e
               then Zpos m * 2 ^ e * p
               else round_half_even (Zpos m * p) (2 ^ (- e)) in
      if q =? 0 then S754_zero s
      else quot (if s then - q else q) p
  | _ => x
  end.

Definition arith : Arith := {|
  num := spec_float;
  lit := quot;
  of_int := of_Z;
  int_div := quot;
  add := SFadd prec emax;
  sub := SFsub prec emax;
  mul := SFmul prec emax;
  div := SFdiv prec emax;
  ltb := SFltb;
  leb := SFleb;
  round_nd := round
|}.

End B64.

(** *** Exact rationals: the formulas as written on paper *)

Module Exact.

Definition quot (n d : Z) : Q :=
  match d with
  | Zpos p => n # p
  | Zneg p => (- n) # p
  | Z0 => 0%Q
  end.

Definition round (x : Q) (ndigits : nat) : Q :=
  let p := 10 ^ Z.of_nat ndigits in
  quot (B64.round_half_even (Qnum x * p) (Zpos (Qden x))) p.

Definition arith : Arith := {|
  num := Q;
  lit := quot;
  of_int := inject_Z;
  int_div := quot;
  add := Qplus;
  sub := Qminus;
  mul := Qmult;
  div := Qdiv;
  ltb := fun x y => negb (Qle_bool y x);
  leb := Qle_bool;
  round_nd := round
|}.

End Exact.

(** ** Exceptions

    A call either returns a value or raises an instance of [Exception]
    whose [str()] is the message.  These are the faults that
    [except Exception] and the bare [except] of the module catch; the
    signals that derive from [BaseException] only (task cancellation,
    interpreter exit) are not faults of a stage and are not modelled. *)

Inductive Outcome (T : Type) : Type :=
| Return (v : T)
| Raise (msg : string).

Arguments Return {T} v.
Arguments Raise {T} msg.

Definition bind {T U : Type} (c : Outcome T) (k : T -> Outcome U) : Outcome U :=
  match c with
  | Return v => k v
  | Raise msg => Raise msg
  end.

(** [try: c  except Exception as e: h(str(e))] *)
Definition try_except {T : Type} (c : Outcome T) (h : string -> Outcome T) : Outcome T :=
  match c with
  | Return v => Return v
  | Raise msg => h msg
  end.

Notation "'let!' x ':=' c 'in' k" := (bind c (fun x => k))
  (at level 10, x name, c at level 100, k at level 200).

(** ** The collaborators of the module *)

Record Metadata : Type := mkMetadata { md_title : option string }.

(** the five [textstat] metrics the adapter asks for, and [set_lang] *)
Record TextStat (A : Arith) : Type := mkTextStat {
  set_lang : string -> Outcome unit;
  flesch_reading_ease : string -> Outcome (num A);
  flesch_kincaid_grade : string -> Outcome (num A);
  gunning_fog : string -> Outcome (num A);
  automated_readability_index : string -> Outcome (num A);
  coleman_liau_index : string -> Outcome (num A)
}.

Arguments set_lang {A} _ _.
Arguments flesch_reading_ease {A} _ _.
Arguments flesch_kincaid_grade {A} _ _.
Arguments gunning_fog {A} _ _.
Arguments automated_readability_index {A} _ _.
Arguments coleman_liau_index {A} _ _.

Record World (A : Arith) : Type := mkWorld {
  (* httpx: [client.get(url)], [raise_for_status()], [response.text] *)
  http_get : string -> Outcome string;
  (* trafilatura.extract(html, ...) and trafilatura.extract_metadata(html) *)
  trafilatura_extract : string -> Outcome (option string);
  trafilatura_extract_metadata : string -> Outcome (option Metadata);
  (* ideadensity: the import flag and the two callables ([None] after a
     failed import); a call returns [float(density)] or raises *)
  IDEADENSITY_AVAILABLE : bool;
  cpidr : option (string -> Outcome (num A));
  depid : option (string -> Outcome (num A));
  (* textstat: the import flag and the module *)
  TEXTSTAT_AVAILABLE : bool;
  textstat : option (TextStat A);
  (* os.getenv(name) and float(str), which is [None] on a ValueError *)
  getenv : string -> option string;
  float_of_str : string -> option (num A);
  (* ipaddress validation inside urlsplit *)
  bracketed_host_ok : string -> bool;
  (* unicodedata.normalize('NFKC', s) inside urlsplit *)
  nfkc_normalize : string -> string
}.

Arguments http_get {A} _ _.
Arguments trafilatura_extract {A} _ _.
Arguments trafilatura_extract_metadata {A} _ _.
Arguments IDEADENSITY_AVAILABLE {A} _.
Arguments cpidr {A} _.
Arguments depid {A} _.
Arguments TEXTSTAT_AVAILABLE {A} _.
Arguments textstat {A} _.
Arguments getenv {A} _ _.
Arguments float_of_str {A} _ _.
Arguments bracketed_host_ok {A} _ _.
Arguments nfkc_normalize {A} _ _.

(** ** Values of the report dictionary *)

Inductive PyVal (A : Arith) : Type :=
| VStr (s : string)
| VInt (n : Z)
| VFloat (x : num A)
| VNone
| VDict (d : gmap string (num A)).

Arguments VStr {A} s.
Arguments VInt {A} n.
Arguments VFloat {A} x.
Arguments VNone {A}.
Arguments VDict {A} d.

(** reading an entry of a report at the type it is expected to have *)
Definition as_str {A : Arith} (v : option (PyVal A)) : option string :=
  match v with
  | Some (VStr s) => Some s
  | _ => None
  end.

Definition as_int {A : Arith} (v : option (PyVal A)) : option Z :=
  match v with
  | Some (VInt n) => Some n
  | _ => None
  end.

Definition as_float {A : Arith} (v : option (PyVal A)) : option (num A) :=
  match v with
  | Some (VFloat x) => Some x
  | _ => None
  end.

(** ** [app/extractor.py] *)

Section Extractor.
Context {A : Arith}.
Variable W : World A.

Notation "x [+] y" := (add A x y) (at level 50, left associativity).
Notation "x [-] y" := (sub A x y) (at level 50, left associativity).
Notation "x [*] y" := (mul A x y) (at level 40, left associativity).
Notation "x [/] y" := (div A x y) (at level 40, left associativity).
Notation "x [<] y" := (ltb A x y) (at level 70, no associativity).
Notation "x [>] y" := (ltb A y x) (at level 70, no associativity).

(** the builtins [max(a, b)] and [min(a, b)]: the first argument is kept
    unless the second compares strictly beyond it *)
Definition py_max (a b : num A) : num A := if b [>] a then b else a.
Definition py_min (a b : num A) : num A := if b [<] a then b else a.

(** [max(0.0, min(1.0, x))] *)
Definition clamp01 (x : num A) : num A :=
  py_max (lit A 0 1) (py_min (lit A 1 1) x).

(** [not text or len(text.strip()) < 50] *)
Definition too_short (text : string) : bool :=
  PyStr.is_empty text || (String.length (PyStr.strip text) <? 50)%nat.

(** calling a module attribute that is [None] raises a [TypeError] *)
Definition call {T U : Type} (f : option (T -> Outcome U)) (x : T) : Outcome U :=
  match f with
  | Some g => g x
  | None => Raise "'NoneType' object is not callable"
  end.

Definition calculate_density (text : string) : num A :=
  if too_short text then lit A 0 1
  else if negb (IDEADENSITY_AVAILABLE W) then lit A 5 10
  else match call (cpidr W) text with
       | Return density => clamp01 density
       | Raise _ => lit A 5 10
       end.

Definition calculate_depid_density (text : string) : option (num A) :=
  if too_short text then None
  else if negb (IDEADENSITY_AVAILABLE W) || negb (bool_decide (is_Some (depid W))) then None
  else match call (depid W) text with
       | Return density => Some (clamp01 density)
       | Raise _ => None
       end.

Definition readability_of (ts : TextStat A) (text : string)
  : Outcome (gmap string (num A)) :=
  let! _ := set_lang ts "en" in
  let! fre := flesch_reading_ease ts text in
  let! fkg := flesch_kincaid_grade ts text in
  let! gf := gunning_fog ts text in
  let! ari := automated_readability_index ts text in
  let! cli := coleman_liau_index ts text in
  Return (<["coleman_liau_index" := cli]>
          (<["automated_readability_index" := ari]>
           (<["gunning_fog" := gf]>
            (<["flesch_kincaid_grade" := fkg]>
             (<["flesch_reading_ease" := fre]> ∅))))).

Definition calculate_readability_scores (text : string) : gmap string (num A) :=
  if too_short text then ∅
  else match TEXTSTAT_AVAILABLE W, textstat W with
       | true, Some ts =>
           match readability_of ts text with
           | Return scores => scores
           | Raise _ => ∅
           end
       | _, _ => ∅
       end.

(** [float(os.getenv(name, default))], the default being a literal *)
Definition getenv_float (name : string) (default : num A) : Outcome (num A) :=
  match getenv W name with
  | None => Return default
  | Some s =>
      match float_of_str W s with
      | Some x => Return x
      | None => Raise ("could not convert string to float: " ++ s)
      end
  end.

Definition calculate_combined_density
    (cpidr_density : num A) (depid_density : option (num A))
    (readability : gmap string (num A)) : Outcome (num A) :=
  let! cpidr_weight := getenv_float "CPIDR_WEIGHT" (lit A 5 10) in
  let! depid_weight := getenv_float "DEPID_WEIGHT" (lit A 3 10) in
  let! readability_weight := getenv_float "READABILITY_WEIGHT" (lit A 2 10) in
  let total_weight := cpidr_weight [+] depid_weight [+] readability_weight in
  let combined := cpidr_density [*] cpidr_weight in
  let '(combined, total_weight) :=
    match depid_density with
    | Some d => (combined [+] d [*] depid_weight, total_weight)
    | None => (combined, total_weight [-] depid_weight)
    end in
  let '(combined, total_weight) :=
    match (if negb (size readability =? 0)%nat
           then readability !! "flesch_reading_ease" else None) with
    | Some flesch_ease =>
        let reading_difficulty :=
          py_max (of_int A 0)
                 (py_min (of_int A 1) ((of_int A 90 [-] flesch_ease) [/] of_int A 90)) in
        (combined [+] reading_difficulty [*] readability_weight, total_weight)
    | None => (combined, total_weight [-] readability_weight)
    end in
  if total_weight [>] of_int A 0
  then Return (clamp01 (combined [/] total_weight))
  else Return cpidr_density.

(** *** class ContentExtractor *)

(** [HIGH_TRUST_DOMAINS]: a dict literal, iterated in the order written *)
Definition HIGH_TRUST_DOMAINS : list (string * num A) :=
  [ ("arxiv.org", lit A 115 100);
    ("github.com", lit A 110 100);
    ("openai.com", lit A 112 100);
    ("deepmind.com", lit A 112 100);
    ("research.google", lit A 112 100);
    ("anthropic.com", lit A 110 100);
    ("huggingface.co", lit A 108 100);
    ("pytorch.org", lit A 108 100);
    ("tensorflow.org", lit A 108 100);
    ("nature.com", lit A 115 100);
    ("science.org", lit A 115 100);
    ("acm.org", lit A 110 100);
    ("ieee.org", lit A 110 100);
    ("distill.pub", lit A 115 100);
    ("lilianweng.github.io", lit A 112 100);
    ("colah.github.io", lit A 112 100);
    ("karpathy.github.io", lit A 112 100);
    ("martin.kleppmann.com", lit A 110 100);
    ("jvns.ca", lit A 108 100);
    ("rachelbythebay.com", lit A 108 100);
    ("danluu.com", lit A 110 100);
    ("brandur.org", lit A 108 100) ].

(** [SPAM_PATTERNS], each searched with [re.I] *)
Definition SPAM_PATTERNS : list Re.regex :=
  [ Re.words ["subscribe"; "to"; "our"; "newsletter"];
    Re.words ["sign"; "up"; "for"; "free"];
    Re.words ["limited"; "time"; "offer"];
    Re.words ["click"; "here"; "to"; "buy"];
    Re.words ["affiliate"; "link"];
    Re.words ["sponsored"; "content"];
    Re.words ["you"; "won't"; "believe"];
    Re.lit "shocking";
    Re.words ["this"; "one"; "trick"] ].

Definition newline : ascii := ascii_of_nat 10.

(** [r'```|`[^`]+`|def |class |function |const |import '] *)
Definition code_pattern : Re.regex :=
  Re.alts [ Re.lit "```";
            Re.seqs [Re.Chr "`"; Re.plus (Re.non "`"); Re.Chr "`"];
            Re.lit "def "; Re.lit "class "; Re.lit "function ";
            Re.lit "const "; Re.lit "import " ].

(** [r'\[\d+\]|arxiv\.|doi\.org|et al\.|figure \d|table \d'], with [re.I] *)
Definition ref_pattern : Re.regex :=
  Re.alts [ Re.seqs [Re.Chr "["; Re.plus Re.digit; Re.Chr "]"];
            Re.lit "arxiv."; Re.lit "doi.org"; Re.lit "et al.";
            Re.Seq (Re.lit "figure ") Re.digit;
            Re.Seq (Re.lit "table ") Re.digit ].

(** [r'\n#{1,3}\s|\n\*\s|\n\d+\.\s|\n-\s'] *)
Definition structural_pattern : Re.regex :=
  Re.alts [ Re.seqs [Re.Chr newline; Re.Rep (Re.Chr "#") 1 (Some 3%nat); Re.ws];
            Re.seqs [Re.Chr newline; Re.Chr "*"; Re.ws];
            Re.seqs [Re.Chr newline; Re.plus Re.digit; Re.Chr "."; Re.ws];
            Re.seqs [Re.Chr newline; Re.Chr "-"; Re.ws] ].

(** [r'<title[^>]*>([^<]+)</title>'], with [re.I] *)
Definition title_pattern : Re.regex :=
  Re.seqs [ Re.lit "<title"; Re.star (Re.non ">"); Re.Chr ">";
            Re.Grp (Re.plus (Re.non "<")); Re.lit "</title>" ].

Definition _extract_domain (url : string) : string :=
  match Url.urlsplit (bracketed_host_ok W) (nfkc_normalize W) url with
  | Some parsed => PyStr.replace "www." "" (Url.netloc parsed)
  | None => "unknown"
  end.

(** Factor 1: content length *)
Definition factor_length (content : string) (score : num A) : num A :=
  let word_count := length (PyStr.split content) in
  if (word_count <? 200)%nat then score [-] lit A 15 100
  else if (word_count <? 500)%nat then score [-] lit A 5 100
  else if (word_count <? 1000)%nat then score [+] lit A 5 100
  else if (word_count <? 3000)%nat then score [+] lit A 10 100
  else if (word_count <? 5000)%nat then score [+] lit A 12 100
  else score [+] lit A 15 100.

(** Factor 2: the loop over the trusted domains, with its [break] *)
Fixpoint domain_loop (items : list (string * num A)) (domain : string)
    (score : num A) : num A :=
  match items with
  | [] => score
  | (trusted_domain, boost) :: rest =>
      if PyStr.contains trusted_domain domain
      then score [*] boost
      else domain_loop rest domain score
  end.

Definition factor_domain (url : string) (score : num A) : num A :=
  let domain := _extract_domain url in
  domain_loop HIGH_TRUST_DOMAINS domain score.

(** Factor 3: code block density *)
Definition factor_code (content : string) (score : num A) : num A :=
  let code_indicators := Re.findall_count false code_pattern content in
  if (0 <? code_indicators)%nat
  then score [+] py_min (lit A 15 100) (of_int A (Z.of_nat code_indicators) [*] lit A 2 100)
  else score.

(** Factor 4: reference density *)
Definition factor_refs (content : string) (score : num A) : num A :=
  let ref_indicators := Re.findall_count true ref_pattern content in
  if (0 <? ref_indicators)%nat
  then score [+] py_min (lit A 10 100) (of_int A (Z.of_nat ref_indicators) [*] lit A 15 1000)
  else score.

(** Factor 5: spam patterns *)
Definition factor_spam (content : string) (score : num A) : num A :=
  let spam_count :=
    length (filter (fun pattern => is_Some (Re.search true pattern content)) SPAM_PATTERNS) in
  if (0 <? spam_count)%nat
  then score [-] of_int A (Z.of_nat spam_count) [*] lit A 10 100
  else score.

(** Factor 6: unique word ratio *)
Definition factor_vocabulary (content : string) (score : num A) : num A :=
  let words := PyStr.split (PyStr.lower content) in
  match words with
  | [] => score
  | _ :: _ =>
      let unique_ratio :=
        int_div A (Z.of_nat (size (list_to_set words : gset string)))
                  (Z.of_nat (length words)) in
      if unique_ratio [>] lit A 5 10 then score [+] lit A 5 100
      else if unique_ratio [<] lit A 3 10 then score [-] lit A 5 100
      else score
  end.

(** Factor 7: structural indicators *)
Definition factor_structure (content : string) (score : num A) : num A :=
  let structural_patterns := Re.findall_count false structural_pattern content in
  if (3 <? structural_patterns)%nat then score [+] lit A 5 100 else score.

Definition _calculate_signal_score (content url title : string) : num A :=
  let score := lit A 5 10 in
  let score := factor_length content score in
  let score := factor_domain url score in
  let score := factor_code content score in
  let score := factor_refs content score in
  let score := factor_spam content score in
  let score := factor_vocabulary content score in
  let score := factor_structure content score in
  clamp01 score.

Definition _extract_title_fallback (html : string) : option string :=
  match Re.search true title_pattern html with
  | Some (Some group1) => Some (PyStr.strip group1)
  | _ => None
  end.

Definition _error_response (url error : string) : gmap string (PyVal A) :=
  <["error" := VStr error]>
  (<["density_score" := VFloat (lit A 0 1)]>
   (<["signal_score" := VFloat (lit A 0 1)]>
    (<["length" := VInt 0]>
     (<["source" := VStr (_extract_domain url)]>
      (<["content" := VStr ("Error: " ++ error)]>
       (<["title" := VStr "Extraction Failed"]>
        (<["url" := VStr url]> ∅))))))).

(** [_fetch_page]: any exception of the transport becomes [None] *)
Definition _fetch_page (url : string) : option string :=
  match http_get W url with
  | Return text => Some text
  | Raise _ => None
  end.

(** [s or default] for an optional string *)
Definition or_else (s : option string) (default : string) : string :=
  match s with
  | Some (String c r) => String c r
  | _ => default
  end.

Definition extract_from_url (url : string) (force_depth : bool)
  : Outcome (gmap string (PyVal A)) :=
  try_except
    (match _fetch_page url with
     | None | Some EmptyString => Return (_error_response url "Failed to fetch page")
     | Some html =>
         let! extracted_opt := trafilatura_extract W html in
         match extracted_opt with
         | None | Some EmptyString => Return (_error_response url "No content extracted")
         | Some extracted =>
             let! metadata := trafilatura_extract_metadata W html in
             let title := match metadata with
                          | Some m => md_title m
                          | None => _extract_title_fallback html
                          end in
             let signal_score := _calculate_signal_score extracted url (or_else title "") in
             let cpidr_score := calculate_density extracted in
             let depid_score := calculate_depid_density extracted in
             let readability_scores := calculate_readability_scores extracted in
             let! density_threshold := getenv_float "DENSITY_THRESHOLD" (lit A 45 100) in
             let! combined_density :=
               calculate_combined_density cpidr_score depid_score readability_scores in
             Return
               (<["readability_score" := VDict readability_scores]>
                (<["depid_density" := match depid_score with
                                      | Some d => VFloat (round_nd A d 3)
                                      | None => VNone
                                      end]>
                 (<["density_score" := VFloat (round_nd A cpidr_score 3)]>
                  (<["signal_score" := VFloat (round_nd A signal_score 2)]>
                   (<["length" := VInt (Z.of_nat (String.length extracted))]>
                    (<["source" := VStr (_extract_domain url)]>
                     (<["content" := VStr extracted]>
                      (<["title" := VStr (or_else title "Untitled")]>
                       (<["url" := VStr url]> ∅)))))))))
         end
     end)
    (fun e => Return (_error_response url e)).

End Extractor.

(** ** The structural analyzer

    [app/services/analyzer.py] is imported by the test-suite but is not
    among the sources; only [tests/test_analyzer.py] is.  Its entry point is
    written down from the specification (section 4.4), with everything the
    specification leaves open as a parameter: the minimum length, the
    HTML parser, the base score, the five checks and the wording of the
    final reason. *)

Module Analyzer.

Record Adjustment : Type := mkAdjustment {
  delta : Z;
  why : string
}.

Record StructureReport : Type := mkReport {
  score : Z;
  reason : string;
  adjustments : list Adjustment
}.

Definition clamp_0_100 (z : Z) : Z := Z.max 0 (Z.min 100 z).

Definition sum_deltas (adjs : list Adjustment) : Z :=
  foldr (fun a acc => delta a + acc) 0 adjs.

Section Heuristic.
Variable MIN_HTML_LENGTH : nat.
Variable DOM : Type.
Variable parse_html : string -> option DOM.
Variable base_score : Z.
Variable detect_slop : string -> DOM -> list Adjustment.
Variable detect_affiliates : DOM -> list Adjustment.
Variable detect_hype : DOM -> list Adjustment.
Variable analyze_code_density : DOM -> string -> list Adjustment.
Variable analyze_data_density : DOM -> list Adjustment.
Variable summary : list Adjustment -> string.

(** Modelled from the spec: [HeuristicAnalyzer.calculate_structure_score]
    of [app/services/analyzer.py], which is missing from the sources.  The
    length guard comes first and returns at once; the parse guard follows;
    only then do the checks run, in the order the specification lists
    them, and the score is the clamped sum of the base and the deltas. *)
Definition calculate_structure_score (html topic : string) : StructureReport :=
  if (String.length html <? MIN_HTML_LENGTH)%nat
  then mkReport 0 "Empty or too short content" []
  else match parse_html html with
       | None => mkReport 30 "Failed to parse HTML" []
       | Some dom =>
           let adjs :=
             (detect_slop html dom ++ detect_affiliates dom ++ detect_hype dom
              ++ analyze_code_density dom topic ++ analyze_data_density dom)%list in
           mkReport (clamp_0_100 (base_score + sum_deltas adjs)) (summary adjs) adjs
       end.

End Heuristic.
End Analyzer.

(** ** Two concrete deployments

    [offline]: no network and none of the optional libraries, the
    environment unset.  [lab]: a page is served, trafilatura extracts it,
    ideadensity and textstat answer with fixed readings.  Both are met
    with ASCII urls only, on which [urlsplit] does not consult the normal
    form. *)

Definition offline (A : Arith) : World A := {|
  http_get := fun _ => Raise "Network error";
  trafilatura_extract := fun _ => Return None;
  trafilatura_extract_metadata := fun _ => Return None;
  IDEADENSITY_AVAILABLE := false;
  cpidr := None;
  depid := None;
  TEXTSTAT_AVAILABLE := false;
  textstat := None;
  getenv := fun _ => None;
  float_of_str := fun _ => None;
  bracketed_host_ok := fun _ => true;
  nfkc_normalize := fun s => s
|}.

Definition lab_page : string :=
  "<html><head><title>Test Article</title></head><body><h1>Test</h1><p>Content</p></body></html>".

Definition lab_text : string :=
  "Machine learning algorithms provide computational methods for learning patterns from data without being explicitly programmed.".

Definition lab_textstat (A : Arith) : TextStat A := {|
  set_lang := fun _ => Return tt;
  flesch_reading_ease := fun _ => Return (lit A 45 1);
  flesch_kincaid_grade := fun _ => Return (lit A 12 1);
  gunning_fog := fun _ => Return (lit A 14 1);
  automated_readability_index := fun _ => Return (lit A 13 1);
  coleman_liau_index := fun _ => Return (lit A 15 1)
|}.

Definition lab (A : Arith) : World A := {|
  http_get := fun _ => Return lab_page;
  trafilatura_extract := fun _ => Return (Some lab_text);
  trafilatura_extract_metadata := fun _ => Return (Some (mkMetadata (Some "Test Article")));
  IDEADENSITY_AVAILABLE := true;
  cpidr := Some (fun _ => Return (lit A 8 10));
  depid := Some (fun _ => Return (lit A 6 10));
  TEXTSTAT_AVAILABLE := true;
  textstat := Some (lab_textstat A);
  getenv := fun _ => None;
  float_of_str := fun _ => None;
  bracketed_host_ok := fun _ => true;
  nfkc_normalize := fun s => s
|}.

(** The keys of a successful report and of a degraded one, as the two
    dict literals of the module list them. *)
Definition success_keys : gset string :=
  list_to_set ["url"; "title"; "content"; "source"; "length"; "signal_score";
               "density_score"; "depid_density"; "readability_score"].

Definition error_keys : gset string :=
  list_to_set ["url"; "title"; "content"; "source"; "length"; "signal_score";
               "density_score"; "error"].

(** The order facts that the clamping idiom [max(0.0, min(1.0, x))]
    relies on; both arithmetics have them. *)
Record OrderLaws (A : Arith) : Prop := mkOrderLaws {
  ltb_leb : forall x y, ltb A x y = true -> leb A x y = true;
  zero_le_zero : leb A (lit A 0 1) (lit A 0 1) = true;
  zero_lt_one : ltb A (lit A 0 1) (lit A 1 1) = true;
  one_le_one : leb A (lit A 1 1) (lit A 1 1) = true
}.

(** a binary64 value between [0.0] and [1.0]; a NaN is not *)
Definition unit_b64 (x : spec_float) : Prop :=
  SFleb (B64.of_Z 0) x = true /\ SFleb x (B64.of_Z 1) = true.

(** the environment leaves the three weights of the combiner unset *)
Definition default_weights {A : Arith} (W : World A) : Prop :=
  getenv W "CPIDR_WEIGHT" = None /\
  getenv W "DEPID_WEIGHT" = None /\
  getenv W "READABILITY_WEIGHT" = None.

(** ** A deployment of the structural analyzer

    A minimum length of 20 characters; a strict parser, which rejects the
    empty document and a text with an [<unclosed>] tag and takes any other
    text as its own DOM; a base score of 50 and checks that find nothing. *)



(** ** [analytics_middleware.py] *)

Module Analytics.

(** What the middleware reads of a request: its headers and its cookies by
    name (the lookup of a header name is the framework's), and the host of
    the peer, absent when [request.client] is [None]. *)
Record Request : Type := mkRequest {
  header : string -> option string;
  cookie : string -> option string;
  client_host : option string
}.

(** [forwarded.split(",")[0]]: the text before the first comma *)
Definition first_entry (forwarded : string) : string :=
  fst (PyStr.break_at (Ascii.eqb ",") forwarded).

Definition get_client_ip (request : Request) : string :=
  match header request "X-Forwarded-For" with
  | Some (String c r) => PyStr.strip (first_entry (String c r))
  | _ =>
      match client_host request with
      | Some host => host
      | None => "unknown"
      end
  end.

Definition parse_device_type (user_agent_str : string) : string :=
  if PyStr.is_empty user_agent_str then "unknown"
  else
    let ua := PyStr.lower user_agent_str in
    if PyStr.contains "mobile" ua || PyStr.contains "android" ua
       || PyStr.contains "iphone" ua then "mobile"
    else if PyStr.contains "ipad" ua || PyStr.contains "tablet" ua then "tablet"
    else if PyStr.contains "windows" ua || PyStr.contains "macintosh" ua
            || PyStr.contains "linux" ua then "desktop"
    else if PyStr.contains "bot" ua || PyStr.contains "spider" ua
            || PyStr.contains "crawl" ua then "bot"
    else "unknown".

(** The columns of a [VisitorLog] row that the middleware reads or writes.
    The model class lives in [analytics_models], which is not among the
    sources: whatever else a row holds is [other_columns]. *)
Record VisitorLog (Extra Time : Type) : Type := mkVisitorLog {
  session_id : string;
  is_active : bool;
  last_activity : Time;
  referrer : option string;
  other_columns : Extra
}.

Arguments mkVisitorLog {Extra Time} _ _ _ _ _.
Arguments session_id {Extra Time} _.
Arguments is_active {Extra Time} _.
Arguments last_activity {Extra Time} _.
Arguments referrer {Extra Time} _.
Arguments other_columns {Extra Time} _.

(** where the database may fail: opening the session (before the [try]),
    the query, the commit *)
Record Faults : Type := mkFaults {
  session_fault : option string;
  query_fault : option string;
  commit_fault : option string
}.

(** what a call of [dispatch] leaves behind: what the caller gets, the rows
    as committed, how often the downstream handler ran, and whether
    [db.close()] ran *)
Record Served (Extra Time Response : Type) : Type := mkServed {
  response : Outcome Response;
  stored : list (VisitorLog Extra Time);
  handler_calls : nat;
  session_closed : bool
}.

Arguments mkServed {Extra Time Response} _ _ _ _.
Arguments response {Extra Time Response} _.
Arguments stored {Extra Time Response} _.
Arguments handler_calls {Extra Time Response} _.
Arguments session_closed {Extra Time Response} _.

Section Dispatch.
Context {Extra Time Response : Type}.
Variable faults : Faults.
Variable utcnow : Time.
(** [call_next k]: what the downstream handler does on its invocation
    number [k] within this call *)
Variable call_next : nat -> Outcome Response.

(** [VisitorLog.session_id == session_id, VisitorLog.is_active == True] *)
Definition selected (sid : string) (v : VisitorLog Extra Time) : bool :=
  String.eqb (session_id v) sid && is_active v.

(** truthiness of a nullable text column *)
Definition has_text (column : option string) : bool :=
  match column with
  | Some (String _ _) => true
  | _ => false
  end.

(** the assignments to the visitor found *)
Definition touch (referer : string) (v : VisitorLog Extra Time) : VisitorLog Extra Time :=
  mkVisitorLog (session_id v) (is_active v) utcnow
    (if negb (PyStr.is_empty referer) && negb (has_text (referrer v))
     then Some referer else referrer v)
    (other_columns v).

(** [.first()], and the row it returns written back; [rows] lists the
    table in the order in which the database returns it *)
Fixpoint update_first (sid referer : string) (rows : list (VisitorLog Extra Time))
  : list (VisitorLog Extra Time) :=
  match rows with
  | [] => []
  | v :: rest =>
      if selected sid v then touch referer v :: rest
      else v :: update_first sid referer rest
  end.

(** the statements of the [try] block that precede [call_next]; the rows
    returned are the committed ones *)
Definition track (rows : list (VisitorLog Extra Time)) (request : Request)
  : Outcome (list (VisitorLog Extra Time)) :=
  let ip := get_client_ip request in
  let ua := default "" (header request "user-agent") in
  let referer := default "" (header request "referer") in
  match cookie request "sgnl_session" with
  | Some (String c r) =>
      let sid := String c r in
      match query_fault faults with
      | Some msg => Raise msg
      | None =>
          match List.find (selected sid) rows with
          | Some visitor =>
              match commit_fault faults with
              | Some msg => Raise msg
              | None => Return (update_first sid referer rows)
              end
          | None => Return rows
          end
      end
  | _ => Return rows
  end.

Definition dispatch (rows : list (VisitorLog Extra Time)) (request : Request)
  : Served Extra Time Response :=
  match session_fault faults with
  | Some msg => mkServed (Raise msg) rows O false
  | None =>
      match track rows request with
      | Return rows' =>
          match call_next 0 with
          | Return r => mkServed (Return r) rows' 1 true
          | Raise _ => mkServed (call_next 1) rows' 2 true
          end
      | Raise _ => mkServed (call_next 0) rows 1 true
      end
  end.

End Dispatch.
End Analytics.

(** ** [benchmark.py] *)

Module Benchmark.
Section Tally.
Context {A : Arith}.

(** what one request of the benchmark came to: the server answered with a
    status code after [req_latency] seconds, or an exception was raised
    (by the client, or for an unsupported method) *)
Inductive Attempt : Type :=
| Answered (status_code : Z) (req_latency : num A)
| Threw (msg : string).

(** the variables of [benchmark_endpoint] that its closures update *)
Record Tally : Type := mkTally {
  latencies : list (num A);
  errors : list string;
  total_requests : Z;
  successful_requests : Z;
  failed_requests : Z
}.

Definition start : Tally := mkTally [] [] 0 0 0.

(** [make_request]: the counters after the request, and the latency returned *)
Definition make_request (attempt : Attempt) (t : Tally) : Tally * num A :=
  match attempt with
  | Answered status_code req_latency =>
      let total := total_requests t + 1 in
      if status_code <? 400
      then (mkTally (latencies t) (errors t) total
              (successful_requests t + 1) (failed_requests t), req_latency)
      else (mkTally (latencies t) (errors t ++ [("HTTP " ++ pretty status_code)%string])%list total
              (successful_requests t) (failed_requests t + 1), req_latency)
  | Threw msg =>
      (mkTally (latencies t) (errors t ++ [("Exception: " ++ PyStr.take 50 msg)%string])%list
         (total_requests t + 1) (successful_requests t) (failed_requests t + 1),
       lit A 0 1)
  end.

(** one turn of the loop of [request_worker] *)
Definition request_worker (attempt : Attempt) (t : Tally) : Tally :=
  let '(t1, latency) := make_request attempt t in
  if ltb A (of_int A 0) latency
  then mkTally (latencies t1 ++ [latency])%list (errors t1) (total_requests t1)
         (successful_requests t1) (failed_requests t1)
  else t1.

(** The workers are coroutines of one event loop and the statements after
    the request hold no [await]: the turns take effect one after the
    other, in the order in which the requests complete. *)
Definition run_workers (attempts : list Attempt) : Tally :=
  fold_left (fun t attempt => request_worker attempt t) attempts start.

(** the counting fields of [BenchmarkResult]; the timing statistics are
    not part of the model *)
Record BenchmarkResult : Type := mkResult {
  result_total_requests : Z;
  result_successful_requests : Z;
  result_failed_requests : Z;
  result_errors : list string
}.

Definition benchmark_endpoint (attempts : list Attempt) : BenchmarkResult :=
  let t := run_workers attempts in
  mkResult (total_requests t) (successful_requests t) (failed_requests t)
    (List.firstn 10 (errors t)).

(** the success rate that [print_result] formats:
    [successful_requests / total_requests * 100] *)
Definition success_rate (result : BenchmarkResult) : Outcome (num A) :=
  if result_total_requests result =? 0 then Raise "division by zero"
  else Return (mul A (int_div A (result_successful_requests result)
                                (result_total_requests result))
                     (of_int A 100)).

End Tally.
End Benchmark.

(** ** [profile_code.py] *)

Module Profiler.
Section Timings.
Context {A : Arith}.

(** [Timer.__exit__], given the time elapsed; [timings] is
    [PerformanceProfiler.timings] *)
Definition timer_exit (name : string) (elapsed : num A)
    (timings : gmap string (list (num A))) : gmap string (list (num A)) :=
  let timings1 :=
    match timings !! name with
    | None => <[name := []]> timings
    | Some _ => timings
    end in
  alter (fun times => times ++ [elapsed])%list name timings1.

(** a line of the table of [print_summary] *)
Record Row : Type := mkRow {
  operation : string;
  calls : nat;
  total : num A;
  avg : num A;
  max_time : num A
}.

(** [sum(times)] *)
Definition py_sum (times : list (num A)) : num A :=
  fold_left (add A) times (of_int A 0).

(** the body of the loop of [print_summary] *)
Definition summary_row (name : string) (times : list (num A)) : Outcome Row :=
  let total := py_sum times in
  match times with
  | [] => Raise "division by zero"
  | first :: rest =>
      let avg := div A total (of_int A (Z.of_nat (length times))) in
      let max_time := fold_left py_max rest first in
      Return (mkRow name (length times) total avg max_time)
  end.

(** the order of [sorted] on the items of a dict: by key *)
Definition by_name (x y : string * list (num A)) : Prop :=
  String.leb (fst x) (fst y) = true.

#[global] Instance by_name_dec (x y : string * list (num A)) : Decision (by_name x y) :=
  decide (String.leb (fst x) (fst y) = true).

Fixpoint rows_of (items : list (string * list (num A))) : Outcome (list Row) :=
  match items with
  | [] => Return []
  | (name, times) :: rest =>
      let! row := summary_row name times in
      let! rows := rows_of rest in
      Return (row :: rows)
  end.

(** [print_summary]: the lines of the table, in the order printed *)
Definition print_summary (timings : gmap string (list (num A))) : Outcome (list Row) :=
  rows_of (merge_sort by_name (map_to_list timings)).

(** the timers that exited, oldest first: name and time elapsed *)
Definition record (exits : list (string * num A)) : gmap string (list (num A)) :=
  fold_left (fun timings e => timer_exit (fst e) (snd e) timings) exits ∅.

End Timings.
End Profiler.

(** ** Vocabulary for the properties of the extractor *)

(** the five keys of a readability map, as the dict literal lists them *)
Definition readability_keys : gset string :=
  list_to_set ["flesch_reading_ease"; "flesch_kincaid_grade"; "gunning_fog";
               "automated_readability_index"; "coleman_liau_index"].

(** [float(os.getenv(name, default))] does not raise: the variable is unset,
    or it is set to a text that [float] accepts *)
Definition env_float_ok {A : Arith} (W : World A) (name : string) : Prop :=
  getenv W name = None \/
  exists s x, getenv W name = Some s /\ float_of_str W s = Some x.

(** [float(os.getenv(name, default))] raises: the variable is set to a
    text that [float] rejects *)
Definition env_float_bad {A : Arith} (W : World A) (name : string) : Prop :=
  exists s, getenv W name = Some s /\ float_of_str W s = None.

(** the three weights the combiner reads *)
Definition weight_names : list string :=
  ["CPIDR_WEIGHT"; "DEPID_WEIGHT"; "READABILITY_WEIGHT"].

(** the four variables that [extract_from_url] reads on its success path *)
Definition env_names : list string :=
  ["DENSITY_THRESHOLD"; "CPIDR_WEIGHT"; "DEPID_WEIGHT"; "READABILITY_WEIGHT"].


(** a text that [urlsplit] takes for a scheme: a letter, then letters,
    digits, [+], [-] and [.] *)
Definition scheme_ok (s : string) : bool :=
  match s with
  | EmptyString => false
  | String c _ => PyStr.isalpha c && PyStr.forallb_str Url.scheme_char s
  end.

(** a host without a delimiter, a bracket, or a character that [urlsplit]
    deletes *)
Definition plain_host_char (c : ascii) : bool :=
  negb (PyStr.has_char c "/?#[]") && negb (Url.unsafe_byte c).

(** what follows the host: nothing, or a path, query or fragment *)
Definition tail_ok (rest : string) : bool :=
  match rest with
  | EmptyString => true
  | String c _ => PyStr.has_char c "/?#"
  end.

(** ** Vocabulary for the properties of the analytics middleware *)


(** the keywords of the first branch of [parse_device_type] *)
Definition mobile_keywords : list string := ["mobile"; "android"; "iphone"].

(** a row as [dispatch] may leave it: only the time of the last activity and
    a referrer that was empty can differ *)
Definition refreshed {Extra Time : Type} (utcnow : Time) (referer : string)
    (v v' : Analytics.VisitorLog Extra Time) : Prop :=
  Analytics.session_id v' = Analytics.session_id v /\
  Analytics.is_active v' = Analytics.is_active v /\
  Analytics.other_columns v' = Analytics.other_columns v /\
  Analytics.last_activity v' = utcnow /\
  (Analytics.referrer v' = Analytics.referrer v \/
   Analytics.has_text (Analytics.referrer v) = false /\
   referer <> "" /\ Analytics.referrer v' = Some referer).

(** ** Vocabulary for the properties of the benchmark and of the profiler *)

(** an attempt that [make_request] counts as successful *)
Definition succeeded {A : Arith} (attempt : @Benchmark.Attempt A) : bool :=
  match attempt with
  | Benchmark.Answered status_code _ => status_code <? 400
  | Benchmark.Threw _ => false
  end.

(** the latency of an answered attempt when it is above zero *)
Definition positive_latency (attempt : @Benchmark.Attempt B64.arith) : option spec_float :=
  match attempt with
  | Benchmark.Answered _ req_latency =>
      if SFltb (B64.of_Z 0) req_latency then Some req_latency else None
  | Benchmark.Threw _ => None
  end.

(** the times elapsed of the timers of one name, oldest first *)
Definition times_of {A : Arith} (name : string) (exits : list (string * num A)) : list (num A) :=
  List.map snd (List.filter (fun e => String.eqb (fst e) name) exits).

(** * Properties *)

(** ** Python strings, by example *)

Example split_words :
  PyStr.split "  Short   content
 here " = ["Short"; "content"; "here"].
Proof. reflexivity. Qed.

Example strip_blank : PyStr.strip "  	 ab c  " = "ab c".
Proof. reflexivity. Qed.

Example replace_all :
  PyStr.replace "www." "" "www.example.www.com" = "example.com".
Proof. reflexivity. Qed.

Example findall_code :
  Re.findall_count false (code_pattern)
    "a ```x``` `b` def f `unclosed" = 4%nat.
Proof. reflexivity. Qed.

Example search_spam :
  Re.search true (Re.words ["sign"; "up"; "for"; "free"])
    "Subscribe! SIGN  up
for free updates" = Some None.
Proof. reflexivity. Qed.

Example title_fallback :
  _extract_title_fallback "<html><head><TITLE id=x> Hello </title>" = Some "Hello".
Proof. reflexivity. Qed.

Example urlsplit_full :
  Url.urlsplit (fun _ => true) (fun s => s) "HTTPS://www.example.com/x?a=1#f"
  = Some (Url.mkSplit "https" "www.example.com" "/x" "a=1" "f").
Proof. reflexivity. Qed.

Example urlsplit_open_bracket :
  Url.urlsplit (fun _ => true) (fun s => s) "http://[::1/x" = None.
Proof. reflexivity. Qed.

(** ** Literals, by example

    On binary64, [lit n d] is the double that a parser reads from the
    decimal literal; the left-hand sides are the literals as the kernel's
    own binary64 reads them. *)

Local Set Warnings "-inexact-float".

Example literals_b64 :
  map Prim2SF
    [ 0.0; 1.0; 0.5; 0.3; 0.2; 0.45; 0.15; 0.05; 0.10; 0.12; 0.02; 0.015;
      1.15; 1.10; 1.12; 1.08 ]%float
  = [ B64.quot 0 1; B64.quot 1 1; B64.quot 5 10; B64.quot 3 10; B64.quot 2 10;
      B64.quot 45 100; B64.quot 15 100; B64.quot 5 100; B64.quot 10 100;
      B64.quot 12 100; B64.quot 2 100; B64.quot 15 1000;
      B64.quot 115 100; B64.quot 110 100; B64.quot 112 100; B64.quot 108 100 ].
Proof. vm_compute. reflexivity. Qed.

Example surviving_weight_b64 :
  let A := B64.arith in
  sub A (sub A (add A (add A (lit A 5 10) (lit A 3 10)) (lit A 2 10)) (lit A 3 10))
        (lit A 2 10)
  = Prim2SF 0.49999999999999994%float.
Proof. vm_compute. reflexivity. Qed.

Example round_b64 :
  B64.round (Prim2SF 0.675%float) 2 = Prim2SF 0.68%float /\
  B64.round (Prim2SF 0.125%float) 2 = Prim2SF 0.12%float /\
  B64.round (Prim2SF 0.39999999999999997%float) 2 = Prim2SF 0.4%float.
Proof. vm_compute. repeat split. Qed.

(** ** Clamping *)

Section Clamp.
Context {A : Arith} (L : OrderLaws A).

Lemma clamp01_bounds (x : num A) :
  leb A (lit A 0 1) (clamp01 x) = true /\ leb A (clamp01 x) (lit A 1 1) = true.
Proof.
  unfold clamp01, py_max, py_min.
  destruct (ltb A x (lit A 1 1)) eqn:Hx1.
  - destruct (ltb A (lit A 0 1) x) eqn:H0x.
    + split; apply (ltb_leb A L); assumption.
    + split; [apply (zero_le_zero A L) | apply (ltb_leb A L), (zero_lt_one A L)].
  - rewrite (zero_lt_one A L).
    split; [apply (ltb_leb A L), (zero_lt_one A L) | apply (one_le_one A L)].
Qed.

End Clamp.

Lemma b64_ltb_leb (x y : spec_float) : SFltb x y = true -> SFleb x y = true.
Proof.
  unfold SFltb, SFleb. destruct (SFcompare x y) as [[ | | ]|]; congruence.
Qed.

Lemma b64_laws : OrderLaws B64.arith.
Proof.
  split; [exact b64_ltb_leb | reflexivity | reflexivity | reflexivity].
Qed.

Lemma exact_laws : OrderLaws Exact.arith.
Proof.
  split; [| reflexivity | reflexivity | reflexivity].
  intros x y. cbn. unfold Qle_bool.
  rewrite negb_true_iff, !Z.leb_le, Z.leb_gt. lia.
Qed.

Lemma clamp01_unit_b64 (x : spec_float) : unit_b64 (clamp01 (A := B64.arith) x).
Proof. exact (clamp01_bounds b64_laws x). Qed.

(** ** Metric adapters *)

Lemma too_short_iff (text : string) :
  too_short text = true <->
  text = "" \/ (String.length (PyStr.strip text) < 50)%nat.
Proof.
  unfold too_short. rewrite orb_true_iff, Nat.ltb_lt.
  split; (intros [H | H]; [left | right; exact H]).
  - destruct text; [reflexivity | discriminate].
  - subst. reflexivity.
Qed.

(** C4. A text that is empty, or whose stripped length is below 50,
    short-circuits the three adapters: the propositional density is [0.0],
    the dependency density is absent ([None], not zero) and the
    readability map is empty, whatever the world says about the
    availability and the answers of ideadensity and textstat. *)
Theorem C4_short_text_short_circuits (A : Arith) (W : World A) (text : string) :
  text = "" \/ (String.length (PyStr.strip text) < 50)%nat ->
  calculate_density W text = lit A 0 1 /\
  calculate_depid_density W text = None /\
  calculate_readability_scores W text = ∅.
Proof.
  intros H. apply too_short_iff in H.
  unfold calculate_density, calculate_depid_density, calculate_readability_scores.
  rewrite H. repeat split.
Qed.

(** C4 at work: with ideadensity and textstat available, ["Short text"]
    never reaches them. *)
Lemma C4_short_text_witness :
  ("Short text" = "" \/ (String.length (PyStr.strip "Short text") < 50)%nat) /\
  calculate_density (lab B64.arith) "Short text" = S754_zero false /\
  calculate_depid_density (lab B64.arith) "Short text" = None /\
  calculate_readability_scores (lab B64.arith) "Short text" = ∅.
Proof.
  assert (Hshort : "Short text" = "" \/
                   (String.length (PyStr.strip "Short text") < 50)%nat).
  { right. vm_compute. lia. }
  split; [exact Hshort |].
  exact (C4_short_text_short_circuits B64.arith (lab B64.arith) "Short text" Hshort).
Defined.

(** With the libraries at hand, a long enough text does reach them. *)
Example lab_density :
  calculate_density (lab B64.arith) lab_text = B64.quot 8 10 /\
  calculate_depid_density (lab B64.arith) lab_text = Some (B64.quot 6 10) /\
  calculate_readability_scores (lab B64.arith) lab_text !! "flesch_reading_ease"
  = Some (B64.of_Z 45).
Proof. vm_compute. repeat split. Qed.

(** ** Domain extraction *)

Lemma extract_domain_unknown (A : Arith) (W : World A) (url : string) :
  Url.urlsplit (bracketed_host_ok W) (nfkc_normalize W) url = None ->
  _extract_domain W url = "unknown".
Proof. unfold _extract_domain. intros ->. reflexivity. Qed.

Example extract_domain_raises (A : Arith) (W : World A) :
  _extract_domain W "http://[::1/x" = "unknown".
Proof. reflexivity. Qed.

Example extract_domain_subdomain (A : Arith) (W : World A) :
  _extract_domain W "https://blog.example.com/article" = "blog.example.com".
Proof. reflexivity. Qed.

(** Outside ASCII the normal form of the network location decides: the
    sign U+2100 has the normal form [a/c], which brings in a slash, and
    [urlparse] raises. *)
Example extract_domain_normal_form (A : Arith) (W : World A) :
  nfkc_normalize W "a℀b" = "aa/cb" ->
  _extract_domain W "http://a℀b/x" = "unknown".
Proof.
  intros Hnfkc.
  assert (Hcheck : Url.checknetloc (nfkc_normalize W) "a℀b" = false).
  { unfold Url.checknetloc.
    change (PyStr.is_empty "a℀b" || PyStr.isascii "a℀b") with false.
    change (PyStr.replace "?" ""
              (PyStr.replace "#" "" (PyStr.replace ":" "" (PyStr.replace "@" "" "a℀b"))))
      with "a℀b".
    cbv beta iota zeta. rewrite Hnfkc. reflexivity. }
  unfold _extract_domain.
  change (Url.urlsplit (bracketed_host_ok W) (nfkc_normalize W) "http://a℀b/x")
    with (if Url.checknetloc (nfkc_normalize W) "a℀b"
          then Some (Url.mkSplit "http" "a℀b" "/x" "" "") else None).
  rewrite Hcheck. reflexivity.
Qed.

(** C2. [_extract_domain] on the two inputs of the claim.  The first is
    as claimed.  On the second, [urlparse] does not raise: a text
    without a double slash is all path, its network location is empty, and
    the function returns the empty string, not ["unknown"]. *)
Theorem C2_extract_domain_examples (A : Arith) (W : World A) :
  _extract_domain W "https://www.example.com/x" = "example.com" /\
  _extract_domain W "not-a-url" = "" /\
  _extract_domain W "not-a-url" <> "unknown".
Proof. repeat split. discriminate. Qed.

(** ** Signal scorer *)

(** Three inputs of [tests/test_extractor.py]: a short page, a page with
    three spam phrases, a short page of arxiv.org. *)
Example signal_score_short (W : World B64.arith) :
  _calculate_signal_score W "Short content" "https://example.com" "Test"
  = Prim2SF 0.39999999999999997%float.
Proof. vm_compute. reflexivity. Qed.

Example signal_score_spam (W : World B64.arith) :
  SFltb
    (_calculate_signal_score W
       "Subscribe to our newsletter! Sign up for free updates! Click here to buy!"
       "https://example.com" "Amazing Offer")
    (B64.quot 5 10) = true.
Proof. vm_compute. reflexivity. Qed.

Example signal_score_arxiv (W : World B64.arith) :
  _calculate_signal_score W "This is a research paper about computer science."
    "https://arxiv.org/abs/1234.5678" "Research Paper"
  = Prim2SF 0.45249999999999996%float.
Proof. vm_compute. reflexivity. Qed.

(** C5. For every content, url and title the signal scorer returns a
    value, and that value lies in [[0.0, 1.0]] (so it is not a NaN
    either); on three empty strings it is [0.35]. *)
Theorem C5_signal_score_in_unit_interval
    (W : World B64.arith) (content url title : string) :
  (exists score, _calculate_signal_score W content url title = score /\ unit_b64 score) /\
  _calculate_signal_score W "" "" "" = B64.quot 35 100.
Proof.
  split.
  - eexists. split; [reflexivity |]. apply clamp01_unit_b64.
  - vm_compute. reflexivity.
Qed.

Section SignalSteps.
Context {A : Arith} (W : World A).

(** exactly one of the six length branches is taken *)
Lemma factor_length_cases (content : string) (score : num A) :
  In (factor_length content score)
     [ sub A score (lit A 15 100); sub A score (lit A 5 100);
       add A score (lit A 5 100); add A score (lit A 10 100);
       add A score (lit A 12 100); add A score (lit A 15 100) ].
Proof.
  unfold factor_length.
  repeat match goal with
         | |- context [if ?b then _ else _] => destruct b
         end; cbn; tauto.
Qed.

(** the loop with its [break] is a search for the first matching entry *)
Lemma domain_loop_find (items : list (string * num A)) (domain : string) (score : num A) :
  domain_loop items domain score =
  match List.find (fun it => PyStr.contains (fst it) domain) items with
  | Some it => mul A score (snd it)
  | None => score
  end.
Proof.
  induction items as [| [trusted_domain boost] rest IH]; cbn [domain_loop List.find fst snd].
  - reflexivity.
  - destruct (PyStr.contains trusted_domain domain); [reflexivity | exact IH].
Qed.

End SignalSteps.

(** C8. The scorer runs its factors in the order of the source: the
    length step acts on the base [0.5], the domain step acts on the
    result of the length step, and the five remaining steps and the clamp
    follow.  The length step adds or subtracts one of six deltas.  The
    domain step multiplies the score it receives by the factor of the
    first entry of [HIGH_TRUST_DOMAINS], in the order written, whose name
    occurs in the domain of the url, and by nothing else; without such an
    entry it leaves the score alone. *)
Theorem C8_domain_boost_on_running_score
    (A : Arith) (W : World A) (content url title : string) :
  _calculate_signal_score W content url title =
    clamp01
      (factor_structure content
         (factor_vocabulary content
            (factor_spam content
               (factor_refs content
                  (factor_code content
                     (factor_domain W url
                        (factor_length content (lit A 5 10)))))))) /\
  In (factor_length content (lit A 5 10))
     [ sub A (lit A 5 10) (lit A 15 100); sub A (lit A 5 10) (lit A 5 100);
       add A (lit A 5 10) (lit A 5 100); add A (lit A 5 10) (lit A 10 100);
       add A (lit A 5 10) (lit A 12 100); add A (lit A 5 10) (lit A 15 100) ] /\
  (forall running : num A,
     factor_domain W url running =
     match List.find (fun it => PyStr.contains (fst it) (_extract_domain W url))
                     HIGH_TRUST_DOMAINS with
     | Some it => mul A running (snd it)
     | None => running
     end).
Proof.
  split; [reflexivity |].
  split; [apply factor_length_cases |].
  intros running. unfold factor_domain. apply domain_loop_find.
Qed.

(** On a short page of arxiv.org the boost is taken on [0.5 - 0.15], which
    differs from boosting the base and then subtracting. *)
Example boost_after_length (W : World B64.arith) :
  let running := factor_length "Short content" (lit B64.arith 5 10) in
  running = B64.quot 35 100 /\
  factor_domain W "https://arxiv.org/abs/1234.5678" running
  = SFmul B64.prec B64.emax (B64.quot 35 100) (B64.quot 115 100) /\
  factor_domain W "https://arxiv.org/abs/1234.5678" running
  <> SFsub B64.prec B64.emax
       (SFmul B64.prec B64.emax (B64.quot 5 10) (B64.quot 115 100)) (B64.quot 15 100).
Proof. vm_compute. repeat split. discriminate. Qed.

(** A host naming two trusted domains is boosted once, by the entry
    written first. *)
Example boost_first_match_only (W : World B64.arith) (running : spec_float) :
  factor_domain W "https://github.com.arxiv.org/x" running
  = SFmul B64.prec B64.emax running (B64.quot 115 100).
Proof. reflexivity. Qed.

Lemma b64_domain_loop_ge (items : list (string * spec_float)) (domain : string)
    (running : spec_float) :
  SFleb running running = true ->
  forallb (fun it => SFleb running (SFmul B64.prec B64.emax running (snd it))) items = true ->
  SFleb running (domain_loop (A := B64.arith) items domain running) = true.
Proof.
  intros Hrefl. induction items as [| [trusted_domain boost] rest IH];
    cbn [domain_loop forallb snd]; intros Hall.
  - exact Hrefl.
  - apply andb_true_iff in Hall as [Hhere Hrest].
    destruct (PyStr.contains trusted_domain domain); [exact Hhere | exact (IH Hrest)].
Qed.

(** C10. The domain step never lowers the score.  The score it receives
    is the outcome of the length step on [0.5]; that is at least [0.35];
    every factor of [HIGH_TRUST_DOMAINS] is above [1]; and the score after
    the step is at least the score before it. *)
Theorem C10_domain_boost_never_lowers
    (W : World B64.arith) (content url title : string) :
  let before := factor_length content (lit B64.arith 5 10) in
  let after := factor_domain W url before in
  SFleb before after = true /\
  SFleb (B64.quot 35 100) before = true /\
  Forall (fun it => SFltb (B64.of_Z 1) (snd it) = true)
         (HIGH_TRUST_DOMAINS (A := B64.arith)).
Proof.
  intros before after. subst after.
  pose proof (factor_length_cases content (lit B64.arith 5 10)) as Hcases.
  fold before in Hcases. clearbody before.
  split; [| split].
  - unfold factor_domain.
    cbn [In] in Hcases.
    destruct Hcases as [H | [H | [H | [H | [H | [H | []]]]]]]; subst before;
      (apply b64_domain_loop_ge; vm_compute; reflexivity).
  - cbn [In] in Hcases.
    destruct Hcases as [H | [H | [H | [H | [H | [H | []]]]]]]; subst before;
      vm_compute; reflexivity.
  - apply List.Forall_forall.
    apply (proj1 (List.forallb_forall (fun it => SFltb (B64.of_Z 1) (snd it)) _)).
    vm_compute. reflexivity.
Qed.

(** ** Density combiner *)

Section Combiner.
Context {A : Arith} (W : World A).

(** the truthiness test on the map adds nothing to the key test *)
Lemma flesch_guard (readability : gmap string (num A)) :
  (if negb (size readability =? 0)%nat
   then readability !! "flesch_reading_ease" else None)
  = readability !! "flesch_reading_ease".
Proof.
  destruct (size readability =? 0)%nat eqn:Hsize; [| reflexivity].
  apply Nat.eqb_eq, map_size_empty_iff in Hsize. subst.
  cbn. symmetry. apply lookup_empty.
Qed.

Lemma getenv_float_unset (name : string) (default : num A) :
  getenv W name = None -> getenv_float W name default = Return default.
Proof. unfold getenv_float. intros ->. reflexivity. Qed.

(** with the weights unset, the combiner is the source's formula on the
    three default literals *)
Lemma combined_density_default
    (cpidr_density : num A) (depid_density : option (num A))
    (readability : gmap string (num A)) :
  default_weights W ->
  calculate_combined_density W cpidr_density depid_density readability =
  let total_weight := add A (add A (lit A 5 10) (lit A 3 10)) (lit A 2 10) in
  let combined := mul A cpidr_density (lit A 5 10) in
  let combined1 :=
    match depid_density with
    | Some d => add A combined (mul A d (lit A 3 10))
    | None => combined
    end in
  let total1 :=
    match depid_density with
    | Some _ => total_weight
    | None => sub A total_weight (lit A 3 10)
    end in
  let combined2 :=
    match readability !! "flesch_reading_ease" with
    | Some flesch_ease =>
        add A combined1
          (mul A (py_max (of_int A 0)
                    (py_min (of_int A 1)
                       (div A (sub A (of_int A 90) flesch_ease) (of_int A 90))))
                 (lit A 2 10))
    | None => combined1
    end in
  let total2 :=
    match readability !! "flesch_reading_ease" with
    | Some _ => total1
    | None => sub A total1 (lit A 2 10)
    end in
  if ltb A (of_int A 0) total2
  then Return (clamp01 (div A combined2 total2))
  else Return cpidr_density.
Proof.
  intros (Hc & Hd & Hr). unfold calculate_combined_density.
  rewrite !getenv_float_unset by assumption. cbn [bind].
  rewrite flesch_guard.
  destruct depid_density, (readability !! "flesch_reading_ease"); reflexivity.
Qed.

End Combiner.

(** Under the default weights the surviving weight is positive in each
    of the four combinations of present and absent optional signals. *)
Lemma b64_surviving_weight_positive (has_depid has_flesch : bool) :
  let A := B64.arith in
  let total := add A (add A (lit A 5 10) (lit A 3 10)) (lit A 2 10) in
  let total1 := if has_depid then total else sub A total (lit A 3 10) in
  let total2 := if has_flesch then total1 else sub A total1 (lit A 2 10) in
  ltb A (of_int A 0) total2 = true.
Proof. destruct has_depid, has_flesch; vm_compute; reflexivity. Qed.

Lemma b64_combined_density_clamped
    (W : World B64.arith) (cpidr_density : num B64.arith)
    (depid_density : option (num B64.arith)) (readability : gmap string (num B64.arith)) :
  default_weights W ->
  exists x, calculate_combined_density W cpidr_density depid_density readability
            = Return (clamp01 (A := B64.arith) x).
Proof.
  intros HW. rewrite (combined_density_default W _ _ _ HW). cbv zeta.
  destruct depid_density as [d |] eqn:Hd,
           (readability !! "flesch_reading_ease") as [f |] eqn:Hf;
    cbv beta iota zeta.
  - pose proof (b64_surviving_weight_positive true true) as Hpos.
    cbv beta iota zeta in Hpos. rewrite Hpos. eexists. reflexivity.
  - pose proof (b64_surviving_weight_positive true false) as Hpos.
    cbv beta iota zeta in Hpos. rewrite Hpos. eexists. reflexivity.
  - pose proof (b64_surviving_weight_positive false true) as Hpos.
    cbv beta iota zeta in Hpos. rewrite Hpos. eexists. reflexivity.
  - pose proof (b64_surviving_weight_positive false false) as Hpos.
    cbv beta iota zeta in Hpos. rewrite Hpos. eexists. reflexivity.
Qed.

(** C7. With the default weights the combiner is a function of its three
    arguments alone: two worlds that both leave the weights unset give the
    same result on the same arguments; and that result is a value in
    [[0.0, 1.0]].  This holds for every cpidr, every optional depid and
    every readability map, in particular for readings inside [[0, 1]]. *)
Theorem C7_combined_density_deterministic_and_bounded
    (W1 W2 : World B64.arith) (cpidr_density : num B64.arith)
    (depid_density : option (num B64.arith)) (readability : gmap string (num B64.arith)) :
  default_weights W1 -> default_weights W2 ->
  exists v,
    calculate_combined_density W1 cpidr_density depid_density readability = Return v /\
    calculate_combined_density W2 cpidr_density depid_density readability = Return v /\
    unit_b64 v.
Proof.
  intros H1 H2.
  destruct (b64_combined_density_clamped W1 cpidr_density depid_density readability H1)
    as [x Hx].
  exists (clamp01 (A := B64.arith) x). split; [exact Hx |].
  split; [| apply clamp01_unit_b64].
  rewrite <- Hx.
  rewrite (combined_density_default W1 _ _ _ H1), (combined_density_default W2 _ _ _ H2).
  reflexivity.
Qed.

(** C7 at work: an offline deployment and the lab, both with unset
    weights, on the readings [0.8], [0.6] and a Flesch ease of [45]. *)
Lemma C7_combined_density_witness :
  default_weights (offline B64.arith) /\ default_weights (lab B64.arith) /\
  exists v,
    calculate_combined_density (offline B64.arith) (B64.quot 8 10) (Some (B64.quot 6 10))
      {[ "flesch_reading_ease" := B64.of_Z 45 ]} = Return v /\
    calculate_combined_density (lab B64.arith) (B64.quot 8 10) (Some (B64.quot 6 10))
      {[ "flesch_reading_ease" := B64.of_Z 45 ]} = Return v /\
    unit_b64 v.
Proof.
  assert (H1 : default_weights (offline B64.arith)) by (repeat split).
  assert (H2 : default_weights (lab B64.arith)) by (repeat split).
  split; [exact H1 |]. split; [exact H2 |].
  exact (C7_combined_density_deterministic_and_bounded
           (offline B64.arith) (lab B64.arith) (B64.quot 8 10) (Some (B64.quot 6 10))
           {[ "flesch_reading_ease" := B64.of_Z 45 ]} H1 H2).
Defined.

(** The value behind the witness: [(0.8*0.5 + 0.6*0.3 + 0.5*0.2) / 1.0]. *)
Example combined_density_lab :
  calculate_combined_density (lab B64.arith) (B64.quot 8 10) (Some (B64.quot 6 10))
    {[ "flesch_reading_ease" := B64.of_Z 45 ]} = Return (B64.quot 68 100).
Proof. vm_compute. reflexivity. Qed.

(** *** The degenerate case: no depid, no Flesch reading *)

(** In exact arithmetic clamping is the identity on [[0, 1]]. *)
Lemma exact_clamp01_id (x : Q) :
  (0 <= x)%Q -> (x <= 1)%Q -> (clamp01 (A := Exact.arith) x == x)%Q.
Proof.
  intros H0 H1. unfold clamp01, py_max, py_min. cbn.
  destruct (Qle_bool 1 x) eqn:Hge; cbn.
  - apply Qle_bool_iff in Hge. apply Qle_antisym; assumption.
  - destruct (Qle_bool x 0) eqn:Hle; cbn; [| reflexivity].
    apply Qle_bool_iff in Hle. apply Qle_antisym; assumption.
Qed.

(** C6 as stated fails on binary64: with the default weights the
    surviving weight is [((0.5 + 0.3 + 0.2) - 0.3) - 0.2], which is
    [0.49999999999999994], and [0.5] comes back as [0.5000000000000001]. *)
Lemma C6_binary64_counterexample :
  default_weights (offline B64.arith) /\
  unit_b64 (B64.quot 5 10) /\
  (∅ : gmap string (num B64.arith)) !! "flesch_reading_ease" = None /\
  calculate_combined_density (offline B64.arith) (B64.quot 5 10) None ∅
  = Return (Prim2SF 0.5000000000000001%float) /\
  calculate_combined_density (offline B64.arith) (B64.quot 5 10) None ∅
  <> Return (B64.quot 5 10).
Proof.
  split; [repeat split |]. split; [split; reflexivity |].
  split; [reflexivity |]. split; [vm_compute; reflexivity |].
  vm_compute. discriminate.
Qed.

(** C6 (amended). Without a depid reading and without a
    [flesch_reading_ease] key, and with the default weights, the combiner
    does not take its fallback branch: it renormalises, returning
    [clamp((cpidr * 0.5) / w)] where [w] is the surviving weight.  On
    binary64 [w] is [0.49999999999999994], for every cpidr.  In exact
    arithmetic [w] is [1/2] and the result equals cpidr whenever cpidr is in
    [[0, 1]]. *)
Theorem C6_degenerate_combiner_renormalises
    (Wb : World B64.arith) (cb : num B64.arith) (rb : gmap string (num B64.arith))
    (We : World Exact.arith) (ce : num Exact.arith) (re : gmap string (num Exact.arith)) :
  default_weights Wb -> rb !! "flesch_reading_ease" = None ->
  default_weights We -> re !! "flesch_reading_ease" = None ->
  (0 <= ce)%Q -> (ce <= 1)%Q ->
  calculate_combined_density Wb cb None rb
  = Return (clamp01 (A := B64.arith)
              (SFdiv B64.prec B64.emax
                 (SFmul B64.prec B64.emax cb (B64.quot 5 10))
                 (Prim2SF 0.49999999999999994%float))) /\
  exists v, calculate_combined_density We ce None re = Return v /\ (v == ce)%Q.
Proof.
  intros HWb Hrb HWe Hre H0 H1. split.
  - rewrite (combined_density_default Wb _ _ _ HWb). cbv zeta.
    rewrite Hrb.
    pose proof (b64_surviving_weight_positive false false) as Hpos.
    cbv beta iota zeta in Hpos. rewrite Hpos.
    reflexivity.
  - rewrite (combined_density_default We _ _ _ HWe). cbv zeta.
    rewrite Hre.
    change (ltb Exact.arith (of_int Exact.arith 0)
              (sub Exact.arith
                 (sub Exact.arith
                    (add Exact.arith
                       (add Exact.arith (lit Exact.arith 5 10) (lit Exact.arith 3 10))
                       (lit Exact.arith 2 10))
                    (lit Exact.arith 3 10))
                 (lit Exact.arith 2 10)))
      with true.
    cbv iota. eexists. split; [reflexivity |].
    assert (Hq : (div Exact.arith (mul Exact.arith ce (lit Exact.arith 5 10))
                    (sub Exact.arith
                       (sub Exact.arith
                          (add Exact.arith
                             (add Exact.arith (lit Exact.arith 5 10) (lit Exact.arith 3 10))
                             (lit Exact.arith 2 10))
                          (lit Exact.arith 3 10))
                       (lit Exact.arith 2 10)) == ce)%Q).
    { cbn. unfold Exact.quot. field. }
    apply Qeq_trans with (2 := Hq).
    apply exact_clamp01_id; rewrite Hq; assumption.
Qed.

(** C6 (amended) at work on [0.5] and on [1/2]. *)
Lemma C6_degenerate_combiner_witness :
  default_weights (offline B64.arith) /\
  default_weights (offline Exact.arith) /\
  calculate_combined_density (offline B64.arith) (B64.quot 5 10) None ∅
  = Return (clamp01 (A := B64.arith)
              (SFdiv B64.prec B64.emax
                 (SFmul B64.prec B64.emax (B64.quot 5 10) (B64.quot 5 10))
                 (Prim2SF 0.49999999999999994%float))) /\
  exists v, calculate_combined_density (offline Exact.arith) (1 # 2)%Q None ∅ = Return v /\
            (v == 1 # 2)%Q.
Proof.
  assert (Hb : default_weights (offline B64.arith)) by (repeat split).
  assert (He : default_weights (offline Exact.arith)) by (repeat split).
  split; [exact Hb |]. split; [exact He |].
  apply (C6_degenerate_combiner_renormalises
           (offline B64.arith) (B64.quot 5 10) ∅
           (offline Exact.arith) (1 # 2)%Q ∅ Hb (lookup_empty _) He (lookup_empty _)).
  - discriminate.
  - discriminate.
Defined.

(** At the ends of the interval binary64 agrees with the exact reading. *)
Example combined_density_ends :
  calculate_combined_density (offline B64.arith) (B64.of_Z 0) None ∅ = Return (B64.of_Z 0) /\
  calculate_combined_density (offline B64.arith) (B64.of_Z 1) None ∅ = Return (B64.of_Z 1).
Proof. vm_compute. split; reflexivity. Qed.

(** ** Orchestrator *)

Section Reports.
Context {A : Arith} (W : World A).

Lemma error_response_dom (url msg : string) :
  dom (_error_response W url msg) = error_keys.
Proof.
  unfold _error_response, error_keys.
  rewrite !dom_insert_L, dom_empty_L. cbn [list_to_set foldr].
  set_solver.
Qed.

Lemma error_response_fields (url msg : string) :
  let r := _error_response W url msg in
  r !! "url" = Some (VStr url) /\
  r !! "title" = Some (VStr "Extraction Failed") /\
  r !! "content" = Some (VStr ("Error: " ++ msg)) /\
  r !! "source" = Some (VStr (_extract_domain W url)) /\
  r !! "length" = Some (VInt 0) /\
  r !! "signal_score" = Some (VFloat (lit A 0 1)) /\
  r !! "density_score" = Some (VFloat (lit A 0 1)) /\
  r !! "error" = Some (VStr msg) /\
  r !! "depid_density" = None /\
  r !! "readability_score" = None.
Proof.
  cbv zeta. unfold _error_response.
  repeat split; simplify_map_eq; reflexivity.
Qed.

(** every run ends in a returned report: a degraded one, or one built by
    the success path *)
Lemma extract_from_url_cases (url : string) (force_depth : bool) :
  (exists msg, extract_from_url W url force_depth
               = Return (_error_response W url msg)) \/
  (exists r, extract_from_url W url force_depth = Return r /\
             dom r = success_keys /\ r !! "url" = Some (VStr url) /\
             r !! "error" = None).
Proof.
  unfold extract_from_url.
  destruct (_fetch_page W url) as [[| c html] |];
    [left; eexists; reflexivity | | left; eexists; reflexivity].
  destruct (trafilatura_extract W (String c html)) as [[[| c' extracted] |] | msg];
    cbn [bind try_except];
    [left; eexists; reflexivity | | left; eexists; reflexivity | left; eexists; reflexivity].
  destruct (trafilatura_extract_metadata W (String c html)) as [metadata | msg];
    cbn [bind try_except]; [| left; eexists; reflexivity].
  destruct (getenv_float W "DENSITY_THRESHOLD" (lit A 45 100)) as [threshold | msg];
    cbn [bind try_except]; [| left; eexists; reflexivity].
  destruct (calculate_combined_density W _ _ _) as [combined | msg];
    cbn [bind try_except]; [| left; eexists; reflexivity].
  right. eexists. split; [reflexivity |]. split; [| split].
  - rewrite !dom_insert_L, dom_empty_L. unfold success_keys. cbn [list_to_set foldr].
    set_solver.
  - simplify_map_eq. reflexivity.
  - simplify_map_eq. reflexivity.
Qed.

End Reports.

Section Failures.
Context {A : Arith} (W : World A).

(** the three ways into the degraded report *)
Lemma fetch_failure_report (url : string) (force_depth : bool) :
  _fetch_page W url = None \/ _fetch_page W url = Some "" ->
  extract_from_url W url force_depth
  = Return (_error_response W url "Failed to fetch page").
Proof. unfold extract_from_url. intros [-> | ->]; reflexivity. Qed.

Lemma no_content_report (url html : string) (force_depth : bool) :
  _fetch_page W url = Some html -> html <> "" ->
  trafilatura_extract W html = Return None \/
  trafilatura_extract W html = Return (Some "") ->
  extract_from_url W url force_depth
  = Return (_error_response W url "No content extracted").
Proof.
  unfold extract_from_url. intros -> Hne Hex.
  destruct html as [| c html]; [congruence |].
  destruct Hex as [-> | ->]; reflexivity.
Qed.

Lemma extraction_fault_report (url html msg : string) (force_depth : bool) :
  _fetch_page W url = Some html -> html <> "" ->
  trafilatura_extract W html = Raise msg ->
  extract_from_url W url force_depth = Return (_error_response W url msg).
Proof.
  unfold extract_from_url. intros -> Hne Hex.
  destruct html as [| c html]; [congruence |].
  rewrite Hex. reflexivity.
Qed.

Lemma metadata_fault_report (url html text msg : string) (force_depth : bool) :
  _fetch_page W url = Some html -> html <> "" ->
  trafilatura_extract W html = Return (Some text) -> text <> "" ->
  trafilatura_extract_metadata W html = Raise msg ->
  extract_from_url W url force_depth = Return (_error_response W url msg).
Proof.
  unfold extract_from_url. intros -> Hne Hex Htext Hmeta.
  destruct html as [| c html]; [congruence |].
  rewrite Hex. destruct text as [| c' text]; [congruence |].
  cbn [bind]. rewrite Hmeta. reflexivity.
Qed.

End Failures.

(** C1 as stated fails: the degraded report of a failed fetch has
    neither a [depid_density] nor a [readability_score] key, so its keys
    are not those of a successful report plus [error]. *)
Lemma C1_degraded_keys_counterexample :
  extract_from_url (offline B64.arith) "https://example.com" false
  = Return (_error_response (offline B64.arith) "https://example.com" "Failed to fetch page") /\
  dom (_error_response (offline B64.arith) "https://example.com" "Failed to fetch page")
  <> success_keys ∪ {["error"]}.
Proof.
  split; [reflexivity |].
  rewrite error_response_dom. intros Heq.
  assert (Hin : "depid_density" ∈ success_keys ∪ ({["error"]} : gset string)).
  { unfold success_keys. cbn [list_to_set foldr]. set_solver. }
  rewrite <- Heq in Hin. unfold error_keys in Hin. cbn [list_to_set foldr] in Hin.
  set_solver.
Qed.

(** C1 (amended). For every url and every failure message the degraded
    report has exactly the keys [url], [title], [content], [source],
    [length], [signal_score], [density_score] and [error]: it carries the
    url, the title ["Extraction Failed"], the content ["Error: "] followed
    by the message, the domain of the url, length [0], both scores [0.0] and
    the message under [error]; it has no [depid_density] and no
    [readability_score] entry.  Every report that [extract_from_url]
    returns is either such a degraded report or has the nine keys of the
    success path. *)
Theorem C1_degraded_report_shape (A : Arith) (W : World A) (url : string) :
  (forall msg : string,
     let r := _error_response W url msg in
     dom r = error_keys /\
     r !! "url" = Some (VStr url) /\
     r !! "title" = Some (VStr "Extraction Failed") /\
     r !! "content" = Some (VStr ("Error: " ++ msg)) /\
     r !! "source" = Some (VStr (_extract_domain W url)) /\
     r !! "length" = Some (VInt 0) /\
     r !! "signal_score" = Some (VFloat (lit A 0 1)) /\
     r !! "density_score" = Some (VFloat (lit A 0 1)) /\
     r !! "error" = Some (VStr msg) /\
     r !! "depid_density" = None /\
     r !! "readability_score" = None) /\
  (forall force_depth : bool,
     exists r, extract_from_url W url force_depth = Return r /\
               ((exists msg, r = _error_response W url msg) \/
                (dom r = success_keys /\ r !! "error" = None))).
Proof.
  split.
  - intros msg. cbv zeta. split; [apply error_response_dom |].
    apply error_response_fields.
  - intros force_depth.
    destruct (extract_from_url_cases W url force_depth)
      as [[msg Hmsg] | [r (Hr & Hdom & _ & Herr)]].
    + eexists. split; [exact Hmsg |]. left. eexists. reflexivity.
    + exists r. split; [exact Hr |]. right. split; assumption.
Qed.

(** C3. [extract_from_url] never raises: for every world, whatever its
    collaborators return or raise, and for every url, the call returns a
    report.  The report is either the one of the success path, with its
    nine keys, or a degraded report with the eight keys of
    [_error_response], whose [error] entry is a string and whose content
    is ["Error: "] followed by that string.  Stage by stage: a transport
    that raises or serves an empty page gives the degraded report
    "Failed to fetch page"; an extraction that yields nothing gives
    "No content extracted"; an exception raised by the extraction or by the
    metadata reader gives the degraded report carrying its message. *)
Theorem C3_extract_from_url_never_raises
    (A : Arith) (W : World A) (url : string) (force_depth : bool) :
  exists report,
    extract_from_url W url force_depth = Return report /\
    report !! "url" = Some (VStr url) /\
    ((dom report = success_keys /\ report !! "error" = None) \/
     (exists msg, dom report = error_keys /\
                  report !! "error" = Some (VStr msg) /\
                  report !! "content" = Some (VStr ("Error: " ++ msg)))) /\
    ((exists m, http_get W url = Raise m) \/ http_get W url = Return "" ->
     report = _error_response W url "Failed to fetch page") /\
    (forall html, http_get W url = Return html -> html <> "" ->
       (trafilatura_extract W html = Return None \/
        trafilatura_extract W html = Return (Some "") ->
        report = _error_response W url "No content extracted") /\
       (forall m, trafilatura_extract W html = Raise m ->
                  report = _error_response W url m) /\
       (forall m text, trafilatura_extract W html = Return (Some text) -> text <> "" ->
                       trafilatura_extract_metadata W html = Raise m ->
                       report = _error_response W url m)).
Proof.
  assert (Hshape : exists report,
             extract_from_url W url force_depth = Return report /\
             report !! "url" = Some (VStr url) /\
             ((dom report = success_keys /\ report !! "error" = None) \/
              (exists msg, dom report = error_keys /\
                           report !! "error" = Some (VStr msg) /\
                           report !! "content" = Some (VStr ("Error: " ++ msg))))).
  { destruct (extract_from_url_cases W url force_depth)
      as [[msg Hmsg] | [r (Hr & Hdom & Hurl & Herr)]].
    - exists (_error_response W url msg). split; [exact Hmsg |].
      pose proof (error_response_fields W url msg) as Hf. cbv zeta in Hf.
      split; [apply Hf |]. right. exists msg.
      split; [apply error_response_dom |]. split; apply Hf.
    - exists r. split; [exact Hr |]. split; [exact Hurl |]. left. split; assumption. }
  destruct Hshape as (report & Hrun & Hurl & Hshape).
  exists report. split; [exact Hrun |]. split; [exact Hurl |]. split; [exact Hshape |].
  split.
  - intros Hfetch.
    assert (Hpage : _fetch_page W url = None \/ _fetch_page W url = Some "").
    { unfold _fetch_page. destruct Hfetch as [[m ->] | ->]; [left | right]; reflexivity. }
    rewrite (fetch_failure_report W url force_depth Hpage) in Hrun. congruence.
  - intros html Hget Hne.
    assert (Hpage : _fetch_page W url = Some html).
    { unfold _fetch_page. rewrite Hget. reflexivity. }
    split; [| split].
    + intros Hnone.
      rewrite (no_content_report W url html force_depth Hpage Hne Hnone) in Hrun.
      congruence.
    + intros m Hraise.
      rewrite (extraction_fault_report W url html m force_depth Hpage Hne Hraise) in Hrun.
      congruence.
    + intros m text Hsome Htext Hmeta.
      rewrite (metadata_fault_report W url html text m force_depth Hpage Hne Hsome Htext Hmeta)
        in Hrun.
      congruence.
Qed.

(** C3 at work: the transport of the offline deployment raises, and the
    caller receives the degraded report. *)
Lemma C3_extract_from_url_witness :
  (exists m, http_get (offline B64.arith) "https://example.com" = Raise m) /\
  exists report,
    extract_from_url (offline B64.arith) "https://example.com" false = Return report /\
    report = _error_response (offline B64.arith) "https://example.com" "Failed to fetch page".
Proof.
  assert (Hraise : exists m, http_get (offline B64.arith) "https://example.com" = Raise m).
  { exists "Network error". reflexivity. }
  split; [exact Hraise |].
  destruct (C3_extract_from_url_never_raises
              B64.arith (offline B64.arith) "https://example.com" false)
    as (report & Hrun & _ & _ & Hfetch & _).
  exists report. split; [exact Hrun |].
  apply Hfetch. left. exact Hraise.
Defined.

(** A fault of the transport, a fault inside trafilatura and a malformed
    environment variable all end in a degraded report; the success path
    of the lab ends in a full one. *)
Example offline_report :
  extract_from_url (offline B64.arith) "https://example.com" false
  = Return (_error_response (offline B64.arith) "https://example.com" "Failed to fetch page").
Proof. reflexivity. Qed.

Example lab_report :
  match extract_from_url (lab B64.arith) "https://www.example.com/a" false with
  | Return r =>
      as_str (r !! "title") = Some "Test Article" /\
      as_str (r !! "source") = Some "example.com" /\
      as_int (r !! "length") = Some 126 /\
      as_float (r !! "density_score") = Some (B64.quot 8 10) /\
      as_float (r !! "depid_density") = Some (B64.quot 6 10) /\
      as_float (r !! "signal_score") = Some (B64.quot 4 10) /\
      as_str (r !! "error") = None
  | Raise _ => False
  end.
Proof. vm_compute. repeat split. Qed.

(** ** Structural analyzer *)




(** The two guard inputs of the test-suite overlap: its malformed input
    (29 characters) is shorter than its short input (31 characters).  A
    minimum length that makes the length guard reject the latter makes it
    reject the former as well, whatever the parser. *)
Lemma length_guard_covers_shorter_input
    (MIN_HTML_LENGTH : nat) (DOM : Type) (parse_html : string -> option DOM)
    (base_score : Z)
    (detect_slop : string -> DOM -> list Analyzer.Adjustment)
    (detect_affiliates detect_hype : DOM -> list Analyzer.Adjustment)
    (analyze_code_density : DOM -> string -> list Analyzer.Adjustment)
    (analyze_data_density : DOM -> list Analyzer.Adjustment)
    (summary : list Analyzer.Adjustment -> string) (topic : string) :
  (String.length "<html><body>Short</body></html>" < MIN_HTML_LENGTH)%nat ->
  Analyzer.calculate_structure_score MIN_HTML_LENGTH DOM parse_html base_score
    detect_slop detect_affiliates detect_hype analyze_code_density
    analyze_data_density summary "<html><unclosed><tags>content" topic
  = Analyzer.mkReport 0 "Empty or too short content" [].
Proof.
  intros Hshort. unfold Analyzer.calculate_structure_score.
  replace (String.length "<html><unclosed><tags>content" <? MIN_HTML_LENGTH)%nat with true;
    [reflexivity |].
  symmetry. apply Nat.ltb_lt. cbn in Hshort |- *. lia.
Qed.

(** * Further properties of the module *)

(** ** Adapters *)



(** X3. The readability map is all or nothing: it holds the five keys, with
    the Flesch ease read from textstat, or it is empty.  No metric that
    raises leaves a partial map behind, and the [flesch_reading_ease] key is
    missing exactly when the map is empty. *)
Theorem X3_readability_all_or_nothing (A : Arith) (W : World A) (text : string) :
  match calculate_readability_scores W text !! "flesch_reading_ease" with
  | Some ease =>
      dom (calculate_readability_scores W text) = readability_keys /\
      too_short text = false /\
      exists ts, TEXTSTAT_AVAILABLE W = true /\ textstat W = Some ts /\
                 flesch_reading_ease ts text = Return ease
  | None => calculate_readability_scores W text = ∅
  end.
Proof.
  unfold calculate_readability_scores.
  destruct (too_short text); [rewrite lookup_empty; reflexivity |].
  destruct (TEXTSTAT_AVAILABLE W); [| rewrite lookup_empty; reflexivity].
  destruct (textstat W) as [ts |]; [| rewrite lookup_empty; reflexivity].
  unfold readability_of.
  destruct (set_lang ts "en") as [[] | ?]; cbn [bind];
    [| rewrite lookup_empty; reflexivity].
  destruct (flesch_reading_ease ts text) as [fre | ?] eqn:Hfre; cbn [bind];
    [| rewrite lookup_empty; reflexivity].
  destruct (flesch_kincaid_grade ts text) as [fkg | ?]; cbn [bind];
    [| rewrite lookup_empty; reflexivity].
  destruct (gunning_fog ts text) as [gf | ?]; cbn [bind];
    [| rewrite lookup_empty; reflexivity].
  destruct (automated_readability_index ts text) as [ari | ?]; cbn [bind];
    [| rewrite lookup_empty; reflexivity].
  destruct (coleman_liau_index ts text) as [cli | ?]; cbn [bind];
    [| rewrite lookup_empty; reflexivity].
  simplify_map_eq.
  split; [| split; [reflexivity | exists ts; repeat split; exact Hfre]].
  rewrite !dom_insert_L, dom_empty_L. unfold readability_keys.
  cbn [list_to_set foldr]. set_solver.
Qed.

Section EnvFloat.
Context {A : Arith} (W : World A).

Lemma getenv_float_outcome (name : string) (default : num A) :
  (env_float_ok W name /\ exists x, getenv_float W name default = Return x) \/
  (env_float_bad W name /\ exists msg, getenv_float W name default = Raise msg).
Proof.
  unfold getenv_float, env_float_ok, env_float_bad.
  destruct (getenv W name) as [s |].
  - destruct (float_of_str W s) as [x |] eqn:Hparse.
    + left. split; [right; exists s, x; split; [reflexivity | exact Hparse] |].
      exists x. reflexivity.
    + right. split; [exists s; split; [reflexivity | exact Hparse] |].
      eexists. reflexivity.
  - left. split; [left; reflexivity | eexists; reflexivity].
Qed.

Lemma env_float_exclusive (name : string) :
  env_float_ok W name -> env_float_bad W name -> False.
Proof.
  intros [Hnone | (s & x & Hs & Hx)] (s' & Hs' & Hbad); congruence.
Qed.

Lemma getenv_float_ok (name : string) (default : num A) :
  env_float_ok W name -> exists x, getenv_float W name default = Return x.
Proof.
  intros Hok. destruct (getenv_float_outcome name default) as [[_ H] | [Hbad _]].
  - exact H.
  - destruct (env_float_exclusive name Hok Hbad).
Qed.

Lemma getenv_float_bad (name : string) (default : num A) :
  env_float_bad W name -> exists msg, getenv_float W name default = Raise msg.
Proof.
  intros Hbad. destruct (getenv_float_outcome name default) as [[Hok _] | [_ H]].
  - destruct (env_float_exclusive name Hok Hbad).
  - exact H.
Qed.

(** the combiner returns exactly when its three weights can be read *)
Lemma combined_density_outcome
    (c : num A) (d : option (num A)) (r : gmap string (num A)) :
  (Forall (env_float_ok W) weight_names /\
   exists v, calculate_combined_density W c d r = Return v) \/
  (Exists (env_float_bad W) weight_names /\
   exists msg, calculate_combined_density W c d r = Raise msg).
Proof.
  unfold calculate_combined_density, weight_names.
  destruct (getenv_float_outcome "CPIDR_WEIGHT" (lit A 5 10))
    as [[Hc [wc ->]] | [Hc [m ->]]]; cbn [bind].
  2: { right. split; [apply Exists_cons_hd; exact Hc | eexists; reflexivity]. }
  destruct (getenv_float_outcome "DEPID_WEIGHT" (lit A 3 10))
    as [[Hd [wd ->]] | [Hd [m ->]]]; cbn [bind].
  2: { right. split; [apply Exists_cons_tl, Exists_cons_hd; exact Hd | eexists; reflexivity]. }
  destruct (getenv_float_outcome "READABILITY_WEIGHT" (lit A 2 10))
    as [[Hr [wr ->]] | [Hr [m ->]]]; cbn [bind].
  2: { right. split; [do 2 apply Exists_cons_tl; apply Exists_cons_hd; exact Hr
                     | eexists; reflexivity]. }
  left. split.
  { constructor; [exact Hc |]. constructor; [exact Hd |].
    constructor; [exact Hr |]. constructor. }
  destruct d; destruct (if negb _ then _ else _); cbv zeta beta iota;
    match goal with |- context [if ?b then _ else _] => destruct b end;
    eexists; reflexivity.
Qed.

End EnvFloat.

(** X4. Whatever weights the environment configures, the combiner either
    returns a value that lies in [[0.0, 1.0]] or is its cpidr argument
    unchanged (the fallback), all three weights being readable; or it
    raises, and then one of the three weight variables is set to a text
    that [float] rejects. *)
Theorem X4_combined_density_any_weights
    (W : World B64.arith) (cpidr_density : num B64.arith)
    (depid_density : option (num B64.arith)) (readability : gmap string (num B64.arith)) :
  match calculate_combined_density W cpidr_density depid_density readability with
  | Return v => (unit_b64 v \/ v = cpidr_density) /\ Forall (env_float_ok W) weight_names
  | Raise _ => Exists (env_float_bad W) weight_names
  end.
Proof.
  destruct (combined_density_outcome W cpidr_density depid_density readability)
    as [[Hok [v Hv]] | [Hbad [msg Hmsg]]].
  2: { rewrite Hmsg. exact Hbad. }
  rewrite Hv. split; [| exact Hok].
  revert Hv. unfold calculate_combined_density.
  destruct (getenv_float W "CPIDR_WEIGHT" _) as [wc |]; cbn [bind]; [| discriminate].
  destruct (getenv_float W "DEPID_WEIGHT" _) as [wd |]; cbn [bind]; [| discriminate].
  destruct (getenv_float W "READABILITY_WEIGHT" _) as [wr |]; cbn [bind]; [| discriminate].
  destruct depid_density; destruct (if negb _ then _ else _); cbv zeta beta iota;
    match goal with |- context [if ?b then _ else _] => destruct b end;
    intros [= <-]; first [right; reflexivity | left; apply clamp01_unit_b64].
Qed.

(** ** Orchestrator, stage by stage *)

Section Stages.
Context {A : Arith} (W : World A).

Lemma error_response_error (url msg : string) :
  _error_response W url msg !! "error" = Some (VStr msg).
Proof. apply (error_response_fields W url msg). Qed.

(** the one run of [extract_from_url]: either a stage stops it, and the
    report is degraded, or all stages pass, and the report is the dict of
    the success path *)
Lemma extract_from_url_run (url : string) (force_depth : bool) :
  (exists msg,
     extract_from_url W url force_depth = Return (_error_response W url msg) /\
     ((exists m, http_get W url = Raise m) \/ http_get W url = Return "" \/
      exists html, http_get W url = Return html /\ html <> "" /\
        ((exists m, trafilatura_extract W html = Raise m) \/
         trafilatura_extract W html = Return None \/
         trafilatura_extract W html = Return (Some "") \/
         exists text, trafilatura_extract W html = Return (Some text) /\ text <> "" /\
           ((exists m, trafilatura_extract_metadata W html = Raise m) \/
            Exists (env_float_bad W) env_names)))) \/
  (exists html text md,
     http_get W url = Return html /\ html <> "" /\
     trafilatura_extract W html = Return (Some text) /\ text <> "" /\
     trafilatura_extract_metadata W html = Return md /\
     Forall (env_float_ok W) env_names /\
     let title := match md with
                  | Some m => md_title m
                  | None => _extract_title_fallback html
                  end in
     extract_from_url W url force_depth =
     Return
       (<["readability_score" := VDict (calculate_readability_scores W text)]>
        (<["depid_density" := match calculate_depid_density W text with
                              | Some d => VFloat (round_nd A d 3)
                              | None => VNone
                              end]>
         (<["density_score" := VFloat (round_nd A (calculate_density W text) 3)]>
          (<["signal_score" :=
               VFloat (round_nd A (_calculate_signal_score W text url (or_else title "")) 2)]>
           (<["length" := VInt (Z.of_nat (String.length text))]>
            (<["source" := VStr (_extract_domain W url)]>
             (<["content" := VStr text]>
              (<["title" := VStr (or_else title "Untitled")]>
               (<["url" := VStr url]> ∅)))))))))).
Proof.
  unfold extract_from_url, _fetch_page.
  destruct (http_get W url) as [[| c html] | m] eqn:Hget; cbn [try_except].
  { left. eexists. split; [reflexivity |]. right. left. reflexivity. }
  2: { left. eexists. split; [reflexivity |]. left. exists m. reflexivity. }
  assert (Hne : String c html <> "") by discriminate.
  destruct (trafilatura_extract W (String c html)) as [[[| c' text] |] | m] eqn:Hex;
    cbn [bind try_except].
  { left. eexists. split; [reflexivity |]. right. right.
    exists (String c html). repeat split; [exact Hne |]. right. right. left. exact Hex. }
  2: { left. eexists. split; [reflexivity |]. right. right.
       exists (String c html). repeat split; [exact Hne |]. right. left. exact Hex. }
  2: { left. eexists. split; [reflexivity |]. right. right.
       exists (String c html). repeat split; [exact Hne |]. left. exists m. exact Hex. }
  assert (Hnt : String c' text <> "") by discriminate.
  destruct (trafilatura_extract_metadata W (String c html)) as [md | m] eqn:Hmd;
    cbn [bind try_except].
  2: { left. eexists. split; [reflexivity |]. right. right.
       exists (String c html). repeat split; [exact Hne |]. right. right. right.
       exists (String c' text). repeat split; [exact Hex | exact Hnt |].
       left. exists m. exact Hmd. }
  destruct (getenv_float_outcome W "DENSITY_THRESHOLD" (lit A 45 100))
    as [[Hthr [thr ->]] | [Hthr [m ->]]]; cbn [bind try_except].
  2: { left. eexists. split; [reflexivity |]. right. right.
       exists (String c html). repeat split; [exact Hne |]. right. right. right.
       exists (String c' text). repeat split; [exact Hex | exact Hnt |].
       right. apply Exists_cons_hd. exact Hthr. }
  destruct (combined_density_outcome W
              (calculate_density W (String c' text))
              (calculate_depid_density W (String c' text))
              (calculate_readability_scores W (String c' text)))
    as [[Hw [v ->]] | [Hw [m ->]]]; cbn [bind try_except].
  2: { left. eexists. split; [reflexivity |]. right. right.
       exists (String c html). repeat split; [exact Hne |]. right. right. right.
       exists (String c' text). repeat split; [exact Hex | exact Hnt |].
       right. apply Exists_cons_tl. exact Hw. }
  right. exists (String c html), (String c' text), md.
  repeat split; try assumption.
  constructor; [exact Hthr | exact Hw].
Qed.

End Stages.

(** X5. [extract_from_url] returns a report without an [error] entry
    exactly when the page is fetched and is not empty, trafilatura
    extracts a non-empty text, the metadata reader does not raise, and
    each of [DENSITY_THRESHOLD], [CPIDR_WEIGHT], [DEPID_WEIGHT] and
    [READABILITY_WEIGHT] is unset or readable as a float.  (So a malformed
    threshold or weight degrades every report, although neither the
    threshold nor the combined density reaches the report.) *)
Theorem X5_extraction_succeeds_iff
    (A : Arith) (W : World A) (url : string) (force_depth : bool) :
  (exists r, extract_from_url W url force_depth = Return r /\ r !! "error" = None) <->
  (exists html text md,
     http_get W url = Return html /\ html <> "" /\
     trafilatura_extract W html = Return (Some text) /\ text <> "" /\
     trafilatura_extract_metadata W html = Return md /\
     Forall (env_float_ok W) env_names).
Proof.
  destruct (extract_from_url_run W url force_depth)
    as [(msg & Hrun & Hwhy) | (html & text & md & Hget & Hne & Hex & Hnt & Hmd & Henv & Hrun)].
  - split.
    + intros (r & Hr & Herr). rewrite Hrun in Hr. injection Hr as <-.
      rewrite error_response_error in Herr. discriminate.
    + intros (html & text & md & Hget & Hne & Hex & Hnt & Hmd & Henv). exfalso.
      destruct Hwhy as [[m Hm] | [Hempty | (html' & Hget' & Hne' & Hwhy)]];
        [congruence | congruence |].
      assert (html' = html) by congruence. subst html'.
      destruct Hwhy as [[m Hm] | [Hnone | [Hempty | (text' & Hex' & Hnt' & Hwhy)]]];
        [congruence | congruence | congruence |].
      destruct Hwhy as [[m Hm] | Hbad]; [congruence |].
      apply Exists_exists in Hbad as (name & Hin & Hbad).
      rewrite Forall_forall in Henv.
      exact (env_float_exclusive W name (Henv name Hin) Hbad).
  - cbv zeta in Hrun. split.
    + intros _. exists html, text, md. repeat split; assumption.
    + intros _. eexists. split; [exact Hrun |]. simplify_map_eq. reflexivity.
Qed.

(** X6. Every report carries the url, the domain of the url as [source], a
    non-empty title and a non-empty content.  In a report without
    [error], [length] is the length of the content and is positive; in a
    degraded report [length] is [0] although the content, ["Error: "]
    followed by the message, is not empty. *)
Theorem X6_report_invariants
    (A : Arith) (W : World A) (url : string) (force_depth : bool) :
  exists r title content n,
    extract_from_url W url force_depth = Return r /\
    as_str (r !! "url") = Some url /\
    as_str (r !! "source") = Some (_extract_domain W url) /\
    as_str (r !! "title") = Some title /\ title <> "" /\
    as_str (r !! "content") = Some content /\ content <> "" /\
    as_int (r !! "length") = Some n /\
    ((r !! "error" = None /\ n = Z.of_nat (String.length content) /\ 0 < n) \/
     (exists msg, as_str (r !! "error") = Some msg /\ n = 0 /\
                  content = "Error: " ++ msg)).
Proof.
  destruct (extract_from_url_run W url force_depth)
    as [(msg & Hrun & _) | (html & text & md & _ & _ & _ & Hnt & _ & _ & Hrun)].
  - exists (_error_response W url msg), "Extraction Failed", ("Error: " ++ msg), 0.
    split; [exact Hrun |].
    pose proof (error_response_fields W url msg) as Hf. cbv zeta in Hf.
    destruct Hf as (-> & -> & -> & -> & -> & _ & _ & -> & _).
    repeat split; try discriminate.
    right. exists msg. repeat split.
  - cbv zeta in Hrun.
    eexists. exists (or_else match md with
                              | Some m => md_title m
                              | None => _extract_title_fallback html
                              end "Untitled"), text, (Z.of_nat (String.length text)).
    split; [exact Hrun |]. simplify_map_eq. cbn [as_str as_int].
    repeat split; try assumption.
    + destruct (match md with Some m => md_title m | None => _ end) as [[| ? ?] |];
        discriminate.
    + left. repeat split. destruct text; [congruence | cbn; lia].
Qed.

(** ** Strings and urls *)

Section StringFacts.

Lemma append_cons (x : ascii) (a b : string) : String x a ++ b = String x (a ++ b).
Proof. reflexivity. Qed.

Lemma append_nil (b : string) : "" ++ b = b.
Proof. reflexivity. Qed.

Lemma append_assoc (a b c : string) : (a ++ b) ++ c = a ++ (b ++ c).
Proof.
  induction a as [| x a IH]; [reflexivity |].
  rewrite !append_cons, IH. reflexivity.
Qed.

Lemma forallb_str_app (p : ascii -> bool) (a b : string) :
  PyStr.forallb_str p (a ++ b) = PyStr.forallb_str p a && PyStr.forallb_str p b.
Proof.
  induction a as [| x a IH]; [reflexivity |].
  rewrite append_cons. cbn. rewrite IH, andb_assoc. reflexivity.
Qed.

Lemma forallb_str_impl (p q : ascii -> bool) (s : string) :
  (forall c, p c = true -> q c = true) ->
  PyStr.forallb_str p s = true -> PyStr.forallb_str q s = true.
Proof.
  intros Hpq. induction s as [| x s IH]; cbn; [reflexivity |].
  intros [Hx Hs]%andb_true_iff. rewrite (Hpq x Hx), (IH Hs). reflexivity.
Qed.

Lemma has_char_forallb (c : ascii) (s : string) :
  PyStr.has_char c s = false <->
  PyStr.forallb_str (fun a => negb (Ascii.eqb a c)) s = true.
Proof.
  induction s as [| x s IH]; cbn; [tauto |].
  rewrite orb_false_iff, andb_true_iff, negb_true_iff, IH. tauto.
Qed.

(** the text before the first stop character, when the stop is where we
    expect it *)
Lemma break_at_app (stop : ascii -> bool) (a b : string) :
  PyStr.forallb_str (fun c => negb (stop c)) a = true ->
  match b with
  | EmptyString => True
  | String c _ => stop c = true
  end ->
  PyStr.break_at stop (a ++ b) = (a, b).
Proof.
  intros Ha Hb. induction a as [| x a IH].
  - rewrite append_nil. destruct b as [| c b]; [reflexivity |]. cbn. rewrite Hb. reflexivity.
  - cbn in Ha. apply andb_true_iff in Ha as [Hx Ha].
    apply negb_true_iff in Hx. rewrite append_cons. cbn. rewrite Hx, (IH Ha). reflexivity.
Qed.

Lemma break_at_fst_clean (stop : ascii -> bool) (s : string) :
  PyStr.forallb_str (fun c => negb (stop c)) (fst (PyStr.break_at stop s)) = true.
Proof.
  induction s as [| x s IH]; cbn; [reflexivity |].
  destruct (stop x) eqn:Hx; cbn; [reflexivity |].
  destruct (PyStr.break_at stop s) as [a b]. cbn in *. rewrite Hx, IH. reflexivity.
Qed.

Lemma remove_unsafe_app (a b : string) :
  Url.remove_unsafe (a ++ b) = Url.remove_unsafe a ++ Url.remove_unsafe b.
Proof.
  induction a as [| x a IH]; [reflexivity |].
  rewrite append_cons. cbn. destruct (Url.unsafe_byte x);
    rewrite ?append_cons, IH; reflexivity.
Qed.

Lemma remove_unsafe_clean (s : string) :
  PyStr.forallb_str (fun c => negb (Url.unsafe_byte c)) s = true ->
  Url.remove_unsafe s = s.
Proof.
  induction s as [| x s IH]; cbn; [reflexivity |].
  intros [Hx Hs]%andb_true_iff. apply negb_true_iff in Hx.
  rewrite Hx, (IH Hs). reflexivity.
Qed.

Lemma scheme_char_facts (c : ascii) :
  Url.scheme_char c = true ->
  Url.unsafe_byte c = false /\ Ascii.eqb ":" c = false /\ Url.c0_or_space c = false.
Proof.
  destruct c as [[] [] [] [] [] [] [] []]; vm_compute; intros H;
    first [discriminate H | repeat split].
Qed.

Lemma isalpha_scheme_char (c : ascii) : PyStr.isalpha c = true -> Url.scheme_char c = true.
Proof. unfold Url.scheme_char. intros ->. reflexivity. Qed.

(** an ASCII network location passes [_checknetloc] without a look at its
    normal form *)
Lemma checknetloc_ascii (nfkc : string -> string) (netloc : string) :
  PyStr.isascii netloc = true -> Url.checknetloc nfkc netloc = true.
Proof. unfold Url.checknetloc. intros ->. rewrite orb_true_r. reflexivity. Qed.

Lemma forallb_str_has_char (p : ascii -> bool) (s : string) :
  PyStr.forallb_str p s = true <-> forall c, PyStr.has_char c s = true -> p c = true.
Proof.
  induction s as [| x s IH]; cbn.
  - split; [intros _ c H; discriminate | reflexivity].
  - rewrite andb_true_iff, IH. split.
    + intros [Hx Hs] c [Hc | Hc]%orb_true_iff; [| exact (Hs c Hc)].
      apply Ascii.eqb_eq in Hc. subst. exact Hx.
    + intros H. split.
      * apply H. rewrite Ascii.eqb_refl. reflexivity.
      * intros c Hc. apply H. rewrite Hc. apply orb_true_r.
Qed.

End StringFacts.

Section PlainUrl.
Context {A : Arith} (W : World A).

Lemma plain_host_facts (host : string) :
  PyStr.forallb_str plain_host_char host = true ->
  PyStr.forallb_str (fun c => negb (Url.unsafe_byte c)) host = true /\
  PyStr.forallb_str (fun c => negb (PyStr.has_char c "/?#")) host = true /\
  PyStr.has_char "[" host = false /\ PyStr.has_char "]" host = false.
Proof.
  intros H. repeat split.
  - revert H. apply forallb_str_impl. intros c.
    unfold plain_host_char. intros [_ H]%andb_true_iff. exact H.
  - revert H. apply forallb_str_impl. intros c.
    destruct c as [[] [] [] [] [] [] [] []]; vm_compute; intros H;
      first [discriminate H | reflexivity].
  - apply has_char_forallb. revert H. apply forallb_str_impl. intros c.
    destruct c as [[] [] [] [] [] [] [] []]; vm_compute; intros H;
      first [discriminate H | reflexivity].
  - apply has_char_forallb. revert H. apply forallb_str_impl. intros c.
    destruct c as [[] [] [] [] [] [] [] []]; vm_compute; intros H;
      first [discriminate H | reflexivity].
Qed.

Lemma urlsplit_plain (scheme host rest : string) :
  scheme_ok scheme = true ->
  PyStr.forallb_str plain_host_char host = true ->
  tail_ok rest = true ->
  Url.checknetloc (nfkc_normalize W) host = true ->
  exists p, Url.urlsplit (bracketed_host_ok W) (nfkc_normalize W)
              (scheme ++ "://" ++ host ++ rest) = Some p /\
            Url.scheme p = PyStr.lower scheme /\ Url.netloc p = host.
Proof.
  intros Hscheme Hhost Htail Hcheck.
  destruct scheme as [| c0 scheme']; [discriminate |].
  cbn [scheme_ok] in Hscheme. apply andb_true_iff in Hscheme as [Halpha Hchars].
  destruct (plain_host_facts host Hhost) as (Hsafe & Hdelim & Hopen & Hclose).
  set (rest' := Url.remove_unsafe rest).
  assert (Htail' : match rest' with
                   | EmptyString => True
                   | String c _ => PyStr.has_char c "/?#" = true
                   end).
  { subst rest'. destruct rest as [| c rest]; [exact I |].
    cbn [tail_ok] in Htail. cbn [Url.remove_unsafe].
    assert (Hc : Url.unsafe_byte c = false).
    { revert Htail. destruct c as [[] [] [] [] [] [] [] []]; vm_compute; intros H;
        first [discriminate H | reflexivity]. }
    rewrite Hc. exact Htail. }
  assert (Hclean : Url.remove_unsafe (Url.lstrip_c0 (String c0 scheme' ++ "://" ++ host ++ rest))
                   = String c0 scheme' ++ ":" ++ "//" ++ host ++ rest').
  { rewrite append_cons. cbn [Url.lstrip_c0].
    destruct (scheme_char_facts c0 (isalpha_scheme_char c0 Halpha)) as (_ & _ & ->).
    rewrite <- append_cons, !remove_unsafe_app.
    rewrite (remove_unsafe_clean (String c0 scheme')), (remove_unsafe_clean host Hsafe).
    - reflexivity.
    - revert Hchars. apply forallb_str_impl. intros c Hc.
      destruct (scheme_char_facts c Hc) as (-> & _). reflexivity. }
  unfold Url.urlsplit. rewrite Hclean.
  assert (Hsplit : Url.split_scheme (String c0 scheme' ++ ":" ++ "//" ++ host ++ rest')
                   = (PyStr.lower (String c0 scheme'), "//" ++ host ++ rest')).
  { unfold Url.split_scheme.
    rewrite (break_at_app (Ascii.eqb ":") (String c0 scheme') (":" ++ "//" ++ host ++ rest')).
    - cbn [append]. rewrite Halpha, Hchars. reflexivity.
    - revert Hchars. apply forallb_str_impl. intros c Hc.
      destruct (scheme_char_facts c Hc) as (_ & -> & _). reflexivity.
    - reflexivity. }
  rewrite Hsplit.
  change (PyStr.startswith "//" ("//" ++ host ++ rest')) with true. cbv iota.
  unfold Url.splitnetloc.
  change (PyStr.drop 2 ("//" ++ host ++ rest')) with (host ++ rest').
  rewrite (break_at_app (fun c => PyStr.has_char c "/?#") host rest' Hdelim Htail').
  rewrite Hopen, Hclose. cbn [andb orb negb].
  destruct (Url.split_on "#" rest') as [u frag].
  destruct (Url.split_on "?" u) as [u' qry].
  rewrite Hcheck.
  eexists. split; [reflexivity |]. split; reflexivity.
Qed.

End PlainUrl.

(** X7. On a url of the shape [scheme://host] followed by nothing or by
    a path, query or fragment, where the host is ASCII and has no
    delimiter, bracket, TAB, CR or LF, the domain is the host with every
    occurrence of ["www."] removed; the letter case of the host is kept.
    (A host outside ASCII is subject to the check of its normal form, which
    can send the url to the ["unknown"] fallback.) *)
Theorem X7_extract_domain_of_plain_url
    (A : Arith) (W : World A) (scheme host rest : string) :
  scheme_ok scheme = true ->
  PyStr.forallb_str plain_host_char host = true ->
  PyStr.isascii host = true ->
  tail_ok rest = true ->
  _extract_domain W (scheme ++ "://" ++ host ++ rest) = PyStr.replace "www." "" host.
Proof.
  intros Hscheme Hhost Hascii Htail.
  destruct (urlsplit_plain W scheme host rest Hscheme Hhost Htail
              (checknetloc_ascii (nfkc_normalize W) host Hascii)) as (p & Hp & _ & Hnet).
  unfold _extract_domain. rewrite Hp, Hnet. reflexivity.
Qed.

Lemma X7_extract_domain_of_plain_url_witness :
  (scheme_ok "https" = true /\
   PyStr.forallb_str plain_host_char "www.Example.com:8080" = true /\
   PyStr.isascii "www.Example.com:8080" = true /\
   tail_ok "/x?q=1" = true) /\
  _extract_domain (offline B64.arith) ("https" ++ "://" ++ "www.Example.com:8080" ++ "/x?q=1")
  = "Example.com:8080".
Proof.
  assert (H1 : scheme_ok "https" = true) by reflexivity.
  assert (H2 : PyStr.forallb_str plain_host_char "www.Example.com:8080" = true)
    by reflexivity.
  assert (H3 : tail_ok "/x?q=1" = true) by reflexivity.
  assert (H4 : PyStr.isascii "www.Example.com:8080" = true) by reflexivity.
  split; [repeat split; assumption |].
  exact (X7_extract_domain_of_plain_url B64.arith (offline B64.arith)
           "https" "www.Example.com:8080" "/x?q=1" H1 H2 H4 H3).
Defined.

(** X10. The signal score reads the url through its domain only and
    never reads the title: two calls on the same content whose urls have
    the same domain return the same score, whatever the titles. *)
Theorem X10_signal_score_sees_only_the_domain
    (A : Arith) (W : World A) (content url1 url2 title1 title2 : string) :
  _extract_domain W url1 = _extract_domain W url2 ->
  _calculate_signal_score W content url1 title1
  = _calculate_signal_score W content url2 title2.
Proof.
  intros Hdomain. unfold _calculate_signal_score, factor_domain.
  rewrite Hdomain. reflexivity.
Qed.

Lemma X10_signal_score_sees_only_the_domain_witness :
  _extract_domain (offline B64.arith) "http://www.arxiv.org/abs/1"
  = _extract_domain (offline B64.arith) "https://arxiv.org/pdf/2?download=1" /\
  _calculate_signal_score (offline B64.arith) "Short content"
    "http://www.arxiv.org/abs/1" "A title"
  = _calculate_signal_score (offline B64.arith) "Short content"
    "https://arxiv.org/pdf/2?download=1" "".
Proof.
  assert (H : _extract_domain (offline B64.arith) "http://www.arxiv.org/abs/1"
              = _extract_domain (offline B64.arith) "https://arxiv.org/pdf/2?download=1")
    by reflexivity.
  split; [exact H |].
  exact (X10_signal_score_sees_only_the_domain B64.arith (offline B64.arith)
           "Short content" "http://www.arxiv.org/abs/1" "https://arxiv.org/pdf/2?download=1"
           "A title" "" H).
Defined.

Section NetlocChars.

Lemma has_char_lstrip_c0 (c : ascii) (s : string) :
  PyStr.has_char c (Url.lstrip_c0 s) = true -> PyStr.has_char c s = true.
Proof.
  induction s as [| x s IH]; cbn; [discriminate |].
  destruct (Url.c0_or_space x); [| exact (fun H => H)].
  intros H. rewrite (IH H). apply orb_true_r.
Qed.

Lemma has_char_remove_unsafe (c : ascii) (s : string) :
  PyStr.has_char c (Url.remove_unsafe s) = true -> PyStr.has_char c s = true.
Proof.
  induction s as [| x s IH]; cbn; [discriminate |].
  destruct (Url.unsafe_byte x); cbn.
  - intros H. rewrite (IH H). apply orb_true_r.
  - intros [H | H]%orb_true_iff; [rewrite H; reflexivity |].
    rewrite (IH H). apply orb_true_r.
Qed.

Lemma has_char_drop (c : ascii) (n : nat) (s : string) :
  PyStr.has_char c (PyStr.drop n s) = true -> PyStr.has_char c s = true.
Proof.
  revert s. induction n as [| n IH]; intros [| x s]; cbn; try exact (fun H => H).
  intros H. rewrite (IH s H). apply orb_true_r.
Qed.

Lemma has_char_break_at (c : ascii) (stop : ascii -> bool) (s : string) :
  (PyStr.has_char c (fst (PyStr.break_at stop s)) = true -> PyStr.has_char c s = true) /\
  (PyStr.has_char c (snd (PyStr.break_at stop s)) = true -> PyStr.has_char c s = true).
Proof.
  induction s as [| x s [IHa IHb]]; cbn; [split; discriminate |].
  destruct (stop x); cbn; [split; [discriminate | exact (fun H => H)] |].
  destruct (PyStr.break_at stop s) as [a b]. cbn in *. split.
  - intros [H | H]%orb_true_iff; [rewrite H; reflexivity |].
    rewrite (IHa H). apply orb_true_r.
  - intros H. rewrite (IHb H). apply orb_true_r.
Qed.

Lemma has_char_split_scheme (c : ascii) (s : string) :
  PyStr.has_char c (snd (Url.split_scheme s)) = true -> PyStr.has_char c s = true.
Proof.
  unfold Url.split_scheme.
  pose proof (proj2 (has_char_break_at c (Ascii.eqb ":") s)) as Hsnd.
  destruct (PyStr.break_at (Ascii.eqb ":") s) as [pre rest]. cbn [snd] in Hsnd.
  destruct pre as [| c0 pre]; [exact (fun H => H) |].
  destruct rest as [| colon after]; [exact (fun H => H) |].
  destruct (PyStr.isalpha c0 && _); cbn [snd]; [| exact (fun H => H)].
  intros H. apply Hsnd. cbn. rewrite H. apply orb_true_r.
Qed.

(** the characters of the network location are characters of the url *)
Lemma netloc_chars (c : ascii) (url : string) :
  PyStr.has_char c
    (fst (Url.splitnetloc (snd (Url.split_scheme (Url.remove_unsafe (Url.lstrip_c0 url))))))
  = true ->
  PyStr.has_char c url = true.
Proof.
  unfold Url.splitnetloc. intros H.
  apply has_char_lstrip_c0, has_char_remove_unsafe, has_char_split_scheme.
  apply (has_char_drop c 2).
  exact (proj1 (has_char_break_at c _ _) H).
Qed.

Lemma urlsplit_without_brackets (ok : string -> bool) (nfkc : string -> string)
    (url : string) :
  PyStr.has_char "[" url = false -> PyStr.has_char "]" url = false ->
  PyStr.isascii url = true ->
  exists p, Url.urlsplit ok nfkc url = Some p.
Proof.
  intros Hopen Hclose Hascii.
  destruct (Url.urlsplit ok nfkc url) as [p |] eqn:Hsplit; [exists p; reflexivity | exfalso].
  revert Hsplit. unfold Url.urlsplit.
  pose proof (fun c => netloc_chars c url) as Hchars.
  destruct (Url.split_scheme _) as [sch u]. cbn [snd] in Hchars.
  destruct (PyStr.startswith "//" u).
  - destruct (Url.splitnetloc u) as [nl rest]. cbn [fst] in Hchars.
    destruct (PyStr.has_char "[" nl) eqn:H1.
    { rewrite (Hchars _ H1) in Hopen. discriminate. }
    destruct (PyStr.has_char "]" nl) eqn:H2.
    { rewrite (Hchars _ H2) in Hclose. discriminate. }
    cbn [andb orb negb].
    destruct (Url.split_on "#" rest) as [u1 frag]. destruct (Url.split_on "?" u1) as [u2 qry].
    rewrite checknetloc_ascii; [discriminate |].
    apply forallb_str_has_char. intros c Hc.
    exact (proj1 (forallb_str_has_char _ url) Hascii c (Hchars c Hc)).
  - destruct (Url.split_on "#" u) as [u1 frag]. destruct (Url.split_on "?" u1) as [u2 qry].
    rewrite checknetloc_ascii by reflexivity. discriminate.
Qed.

End NetlocChars.

(** X8. The ["unknown"] fallback is out of reach of an ASCII url without
    a square bracket: [urlsplit] accepts every such url, whatever the
    validation of bracketed hosts and the normal form are, and the domain
    is its network location with ["www."] removed, be it empty.  (Outside
    ASCII the check of the normal form of the network location is a second
    way into the fallback.) *)
Theorem X8_ascii_url_fallback_needs_bracket (A : Arith) (W : World A) (url : string) :
  PyStr.has_char "[" url = false -> PyStr.has_char "]" url = false ->
  PyStr.isascii url = true ->
  exists p, Url.urlsplit (bracketed_host_ok W) (nfkc_normalize W) url = Some p /\
            _extract_domain W url = PyStr.replace "www." "" (Url.netloc p).
Proof.
  intros Hopen Hclose Hascii.
  destruct (urlsplit_without_brackets (bracketed_host_ok W) (nfkc_normalize W) url
              Hopen Hclose Hascii) as [p Hp].
  exists p. split; [exact Hp |]. unfold _extract_domain. rewrite Hp. reflexivity.
Qed.

(** the domain is a bare network location *)
Section DomainChars.

Lemma has_char_replace_from (c : ascii) (old : string) (skip : nat) (s : string) :
  PyStr.has_char c (PyStr.replace_from old "" skip s) = true -> PyStr.has_char c s = true.
Proof.
  revert skip. induction s as [| x s IH]; intros skip; cbn; [discriminate |].
  destruct skip as [| skip].
  - destruct (PyStr.startswith old (String x s)).
    + rewrite append_nil. intros H. rewrite (IH _ H). apply orb_true_r.
    + cbn. intros [H | H]%orb_true_iff; [rewrite H; reflexivity |].
      rewrite (IH _ H). apply orb_true_r.
  - intros H. rewrite (IH _ H). apply orb_true_r.
Qed.

Lemma remove_unsafe_has_none (c : ascii) (s : string) :
  Url.unsafe_byte c = true -> PyStr.has_char c (Url.remove_unsafe s) = false.
Proof.
  intros Hc. induction s as [| x s IH]; cbn; [reflexivity |].
  destruct (Url.unsafe_byte x) eqn:Hx; [exact IH |].
  cbn. rewrite IH, orb_false_r.
  destruct (Ascii.eqb x c) eqn:Heq; [| reflexivity].
  apply Ascii.eqb_eq in Heq. congruence.
Qed.

Lemma has_char_forallb_neg (stop : ascii -> bool) (c : ascii) (s : string) :
  stop c = true ->
  PyStr.forallb_str (fun a => negb (stop a)) s = true -> PyStr.has_char c s = false.
Proof.
  intros Hc. induction s as [| x s IH]; cbn; [reflexivity |].
  intros [Hx Hs]%andb_true_iff. rewrite (IH Hs), orb_false_r.
  destruct (Ascii.eqb x c) eqn:Heq; [| reflexivity].
  apply Ascii.eqb_eq in Heq. subst. rewrite Hc in Hx. discriminate.
Qed.

Lemma netloc_is_bare (ok : string -> bool) (nfkc : string -> string) (url : string)
    (p : Url.SplitResult) (c : ascii) :
  Url.urlsplit ok nfkc url = Some p ->
  PyStr.has_char c "/?#" = true \/ Url.unsafe_byte c = true ->
  PyStr.has_char c (Url.netloc p) = false.
Proof.
  unfold Url.urlsplit.
  pose proof (has_char_split_scheme c (Url.remove_unsafe (Url.lstrip_c0 url))) as Hs.
  destruct (Url.split_scheme _) as [sch u]. cbn [snd] in Hs.
  destruct (PyStr.startswith "//" u).
  - unfold Url.splitnetloc.
    pose proof (proj1 (has_char_break_at c (fun c => PyStr.has_char c "/?#") (PyStr.drop 2 u)))
      as Hnl.
    pose proof (break_at_fst_clean (fun c => PyStr.has_char c "/?#") (PyStr.drop 2 u))
      as Hclean.
    destruct (PyStr.break_at _ (PyStr.drop 2 u)) as [nl rest]. cbn [fst] in Hnl, Hclean.
    destruct (_ || _); [discriminate |].
    destruct (_ && _); [discriminate |].
    destruct (Url.split_on "#" rest) as [u1 frag]. destruct (Url.split_on "?" u1) as [u2 qry].
    destruct (Url.checknetloc nfkc nl); [| discriminate].
    intros [= <-]. cbn [Url.netloc]. intros [Hdelim | Hunsafe].
    + exact (has_char_forallb_neg _ c nl Hdelim Hclean).
    + destruct (PyStr.has_char c nl) eqn:Hin; [| reflexivity].
      pose proof (Hs (has_char_drop c 2 u (Hnl eq_refl))) as Hbad.
      rewrite (remove_unsafe_has_none c _ Hunsafe) in Hbad. discriminate.
  - destruct (Url.split_on "#" u) as [u1 frag]. destruct (Url.split_on "?" u1) as [u2 qry].
    destruct (Url.checknetloc nfkc ""); [| discriminate].
    intros [= <-]. reflexivity.
Qed.

End DomainChars.

(** X9. The domain never contains a slash, a question mark, a hash sign, a
    TAB, a CR or a LF: the path, the query and the fragment of the url
    never leak into it. *)
Theorem X9_extract_domain_is_bare (A : Arith) (W : World A) (url : string) (c : ascii) :
  PyStr.has_char c "/?#" = true \/ Url.unsafe_byte c = true ->
  PyStr.has_char c (_extract_domain W url) = false.
Proof.
  intros Hc. unfold _extract_domain.
  destruct (Url.urlsplit (bracketed_host_ok W) (nfkc_normalize W) url) as [p |] eqn:Hsplit.
  - destruct (PyStr.has_char c (PyStr.replace "www." "" (Url.netloc p))) eqn:Hin;
      [| reflexivity].
    apply has_char_replace_from in Hin.
    rewrite (netloc_is_bare _ _ url p c Hsplit Hc) in Hin. discriminate.
  - destruct Hc as [Hc | Hc]; revert Hc;
      destruct c as [[] [] [] [] [] [] [] []]; vm_compute; intros H;
      first [discriminate H | reflexivity].
Qed.

(** ** The title fallback *)

Section TitleRegex.


Lemma length_app (a b : string) :
  String.length (a ++ b) = (String.length a + String.length b)%nat.
Proof.
  induction a as [| x a IH]; [reflexivity |].
  rewrite append_cons. cbn. rewrite IH. reflexivity.
Qed.



Lemma lower_char_lt (a : ascii) : Ascii.eqb a "<" = false -> Re.same_char true a "<" = false.
Proof.
  destruct a as [[] [] [] [] [] [] [] []]; vm_compute; intros H;
    first [discriminate H | reflexivity].
Qed.



End TitleRegex.







(** ** Caps of the additive factors *)

Lemma b64_py_min_le (a b : spec_float) :
  SFleb a a = true -> SFleb (py_min (A := B64.arith) a b) a = true.
Proof.
  intros Ha. unfold py_min. cbn [ltb B64.arith].
  destruct (SFltb b a) eqn:Hlt; [apply b64_ltb_leb; exact Hlt | exact Ha].
Qed.

(** X13. The code step adds nothing or a boost of at most [0.15]; the
    reference step adds nothing or a boost of at most [0.10]; the spam step
    subtracts nothing or [hits * 0.10] with [hits] between 1 and 9, each
    of the nine patterns counting once however often it occurs. *)
Theorem X13_additive_factors_are_capped (content : string) (score : num B64.arith) :
  (factor_code content score = score \/
   exists boost, factor_code content score = SFadd B64.prec B64.emax score boost /\
                 SFleb boost (B64.quot 15 100) = true) /\
  (factor_refs content score = score \/
   exists boost, factor_refs content score = SFadd B64.prec B64.emax score boost /\
                 SFleb boost (B64.quot 10 100) = true) /\
  (factor_spam content score = score \/
   exists hits, (1 <= hits <= 9)%nat /\
                factor_spam content score
                = SFsub B64.prec B64.emax score
                    (SFmul B64.prec B64.emax (B64.of_Z (Z.of_nat hits)) (B64.quot 10 100))).
Proof.
  split; [| split].
  - unfold factor_code. destruct (0 <? _)%nat; [right | left; reflexivity].
    eexists. split; [reflexivity |]. apply b64_py_min_le. reflexivity.
  - unfold factor_refs. destruct (0 <? _)%nat; [right | left; reflexivity].
    eexists. split; [reflexivity |]. apply b64_py_min_le. reflexivity.
  - unfold factor_spam.
    set (hits := length (filter _ SPAM_PATTERNS)).
    assert (Hle : (hits <= 9)%nat).
    { subst hits. etransitivity; [apply length_filter |]. reflexivity. }
    destruct (0 <? hits)%nat eqn:Hpos; [right | left; reflexivity].
    apply Nat.ltb_lt in Hpos. exists hits. split; [lia | reflexivity].
Qed.

Lemma X8_ascii_url_fallback_needs_bracket_witness :
  (PyStr.has_char "[" "not-a-url" = false /\ PyStr.has_char "]" "not-a-url" = false /\
   PyStr.isascii "not-a-url" = true) /\
  exists p, Url.urlsplit (bracketed_host_ok (offline B64.arith))
              (nfkc_normalize (offline B64.arith)) "not-a-url" = Some p /\
            _extract_domain (offline B64.arith) "not-a-url"
            = PyStr.replace "www." "" (Url.netloc p).
Proof.
  assert (H1 : PyStr.has_char "[" "not-a-url" = false) by reflexivity.
  assert (H2 : PyStr.has_char "]" "not-a-url" = false) by reflexivity.
  assert (H3 : PyStr.isascii "not-a-url" = true) by reflexivity.
  split; [repeat split; assumption |].
  exact (X8_ascii_url_fallback_needs_bracket B64.arith (offline B64.arith)
           "not-a-url" H1 H2 H3).
Defined.

Lemma X9_extract_domain_is_bare_witness :
  (PyStr.has_char "/" "/?#" = true \/ Url.unsafe_byte "/" = true) /\
  PyStr.has_char "/" (_extract_domain (offline B64.arith) "https://example.com/a/b?c#d")
  = false.
Proof.
  assert (H : PyStr.has_char "/" "/?#" = true \/ Url.unsafe_byte "/" = true)
    by (left; reflexivity).
  split; [exact H |].
  exact (X9_extract_domain_is_bare B64.arith (offline B64.arith)
           "https://example.com/a/b?c#d" "/" H).
Defined.

(** ** The analytics middleware *)

Section CaseFolding.

Lemma lower_char_idem (c : ascii) : PyStr.lower_char (PyStr.lower_char c) = PyStr.lower_char c.
Proof. destruct c as [[] [] [] [] [] [] [] []]; reflexivity. Qed.

Lemma lower_idem (s : string) : PyStr.lower (PyStr.lower s) = PyStr.lower s.
Proof. induction s as [| c s IH]; cbn; [reflexivity |]. rewrite lower_char_idem, IH. reflexivity. Qed.

Lemma lower_app (a b : string) : PyStr.lower (a ++ b) = PyStr.lower a ++ PyStr.lower b.
Proof.
  induction a as [| c a IH]; [rewrite !append_nil; reflexivity |].
  cbn [PyStr.lower]. rewrite !append_cons. cbn [PyStr.lower]. rewrite IH. reflexivity.
Qed.

Lemma is_empty_lower (s : string) : PyStr.is_empty (PyStr.lower s) = PyStr.is_empty s.
Proof. destruct s; reflexivity. Qed.

Lemma startswith_app (p s : string) : PyStr.startswith p (p ++ s) = true.
Proof.
  induction p as [| c p IH]; [destruct s; reflexivity |].
  rewrite append_cons. cbn. rewrite Ascii.eqb_refl, IH. reflexivity.
Qed.

Lemma contains_app (pre p post : string) : PyStr.contains p (pre ++ p ++ post) = true.
Proof.
  induction pre as [| c pre IH].
  - rewrite append_nil. destruct (p ++ post) eqn:E; cbn; rewrite <- E, startswith_app; reflexivity.
  - rewrite append_cons. cbn. rewrite IH. apply orb_true_r.
Qed.

End CaseFolding.

(** X14. [parse_device_type] does not look at letter case: a user agent and
    its lower-case form get the same class. *)
Theorem X14_device_type_ignores_case (user_agent_str : string) :
  Analytics.parse_device_type (PyStr.lower user_agent_str)
  = Analytics.parse_device_type user_agent_str.
Proof.
  unfold Analytics.parse_device_type.
  rewrite is_empty_lower, lower_idem. reflexivity.
Qed.

(** X15. The first branch of [parse_device_type] wins: a user agent that
    contains "mobile", "android" or "iphone" in any letter case is classed
    "mobile", whatever else it names (a tablet, an operating system, a
    crawler). *)
Theorem X15_mobile_keyword_wins (pre kw post : string) :
  In (PyStr.lower kw) mobile_keywords ->
  Analytics.parse_device_type (pre ++ kw ++ post) = "mobile".
Proof.
  intros Hkw. unfold Analytics.parse_device_type.
  assert (Hne : PyStr.is_empty (pre ++ kw ++ post) = false).
  { destruct pre as [| c pre]; [rewrite append_nil | reflexivity].
    destruct kw as [| c kw]; [| reflexivity].
    cbn in Hkw. repeat destruct Hkw as [Hkw | Hkw]; try discriminate; contradiction. }
  rewrite Hne. cbv zeta. rewrite !lower_app.
  cbn in Hkw. destruct Hkw as [Hkw | [Hkw | [Hkw | []]]]; rewrite <- Hkw, contains_app;
    rewrite ?orb_true_r; reflexivity.
Qed.

Lemma X15_mobile_keyword_wins_witness :
  In (PyStr.lower "Android") mobile_keywords /\
  Analytics.parse_device_type
    ("Mozilla/5.0 (Linux; " ++ "Android" ++ " 6.0.1; Nexus 5X) (compatible; Googlebot/2.1)")
  = "mobile".
Proof.
  split; [right; left; reflexivity |].
  apply (X15_mobile_keyword_wins "Mozilla/5.0 (Linux; " "Android"
           " 6.0.1; Nexus 5X) (compatible; Googlebot/2.1)").
  right; left; reflexivity.
Defined.

Section Strip.

Lemma has_char_lstrip (c : ascii) (s : string) :
  PyStr.has_char c (PyStr.lstrip s) = true -> PyStr.has_char c s = true.
Proof.
  induction s as [| x s IH]; cbn; [discriminate |].
  destruct (PyStr.isspace x); cbn; [| exact (fun H => H)].
  intros H. rewrite (IH H). apply orb_true_r.
Qed.

Lemma has_char_rstrip (c : ascii) (s : string) :
  PyStr.has_char c (PyStr.rstrip s) = true -> PyStr.has_char c s = true.
Proof.
  induction s as [| x s IH]; cbn; [discriminate |].
  destruct (PyStr.isspace x && PyStr.is_empty (PyStr.rstrip s)); cbn; [discriminate |].
  intros [H | H]%orb_true_iff; [rewrite H; reflexivity |].
  rewrite (IH H). apply orb_true_r.
Qed.

Lemma has_char_strip (c : ascii) (s : string) :
  PyStr.has_char c s = false -> PyStr.has_char c (PyStr.strip s) = false.
Proof.
  intros Hs. unfold PyStr.strip.
  destruct (PyStr.has_char c (PyStr.rstrip (PyStr.lstrip s))) eqn:E; [| reflexivity].
  apply has_char_rstrip, has_char_lstrip in E. congruence.
Qed.

Lemma rstrip_idem (s : string) : PyStr.rstrip (PyStr.rstrip s) = PyStr.rstrip s.
Proof.
  induction s as [| x s IH]; cbn; [reflexivity |].
  destruct (PyStr.isspace x && PyStr.is_empty (PyStr.rstrip s)) eqn:E; [reflexivity |].
  cbn. rewrite IH, E. reflexivity.
Qed.

(** a text that does not start with a blank keeps its start under [rstrip] *)
Lemma lstrip_rstrip (s : string) :
  PyStr.lstrip s = s -> PyStr.lstrip (PyStr.rstrip s) = PyStr.rstrip s.
Proof.
  destruct s as [| x s]; [reflexivity |]. cbn.
  destruct (PyStr.isspace x) eqn:Hx.
  - intros H. exfalso. clear Hx.
    assert (Hlen : (String.length (PyStr.lstrip s) <= String.length s)%nat).
    { clear H. induction s as [| y s IH]; cbn; [lia |].
      destruct (PyStr.isspace y); cbn; lia. }
    rewrite H in Hlen. cbn in Hlen. lia.
  - intros _. cbn. rewrite Hx. reflexivity.
Qed.

Lemma lstrip_idem (s : string) : PyStr.lstrip (PyStr.lstrip s) = PyStr.lstrip s.
Proof.
  induction s as [| x s IH]; cbn; [reflexivity |].
  destruct (PyStr.isspace x) eqn:Hx; [exact IH |]. cbn. rewrite Hx. reflexivity.
Qed.

Lemma strip_idem (s : string) : PyStr.strip (PyStr.strip s) = PyStr.strip s.
Proof.
  unfold PyStr.strip.
  rewrite (lstrip_rstrip (PyStr.lstrip s) (lstrip_idem s)). apply rstrip_idem.
Qed.

End Strip.



(** X17. Under a non-empty [X-Forwarded-For] header the address that
    [get_client_ip] returns holds no comma and is already stripped. *)
Theorem X17_forwarded_ip_is_one_stripped_entry
    (request : Analytics.Request) (forwarded : string) :
  Analytics.header request "X-Forwarded-For" = Some forwarded ->
  forwarded <> "" ->
  PyStr.has_char "," (Analytics.get_client_ip request) = false /\
  PyStr.strip (Analytics.get_client_ip request) = Analytics.get_client_ip request.
Proof.
  intros Hh Hne. unfold Analytics.get_client_ip. rewrite Hh.
  destruct forwarded as [| c r]; [congruence |]. split.
  - apply has_char_strip. unfold Analytics.first_entry.
    apply (has_char_forallb_neg (Ascii.eqb ",")); [reflexivity |].
    apply break_at_fst_clean.
  - apply strip_idem.
Qed.

Lemma X17_forwarded_ip_is_one_stripped_entry_witness :
  let request :=
    Analytics.mkRequest
      (fun name => if String.eqb name "X-Forwarded-For" then Some "198.51.100.4 ,10.1.1.1" else None)
      (fun _ => None) None in
  (Analytics.header request "X-Forwarded-For" = Some "198.51.100.4 ,10.1.1.1" /\
   "198.51.100.4 ,10.1.1.1" <> "") /\
  PyStr.has_char "," (Analytics.get_client_ip request) = false /\
  PyStr.strip (Analytics.get_client_ip request) = Analytics.get_client_ip request.
Proof.
  cbv zeta. split; [split; [reflexivity | discriminate] |].
  apply (X17_forwarded_ip_is_one_stripped_entry _ "198.51.100.4 ,10.1.1.1");
    [reflexivity | discriminate].
Defined.

Section DispatchFacts.
Context {Extra Time Response : Type}.
Variable faults : Analytics.Faults.
Variable utcnow : Time.
Variable call_next : nat -> Outcome Response.

Lemma touch_refreshed (referer : string) (v : Analytics.VisitorLog Extra Time) :
  refreshed utcnow referer v (Analytics.touch utcnow referer v).
Proof.
  unfold refreshed, Analytics.touch. cbn.
  repeat (split; [reflexivity |]).
  destruct referer as [| c r]; cbn; [left; reflexivity |].
  destruct (Analytics.has_text (Analytics.referrer v)) eqn:E; cbn; [left; reflexivity |].
  right. repeat split. discriminate.
Qed.

Lemma update_first_found (sid referer : string) (rows : list (Analytics.VisitorLog Extra Time))
    (visitor : Analytics.VisitorLog Extra Time) :
  List.find (Analytics.selected sid) rows = Some visitor ->
  exists before after,
    rows = (before ++ visitor :: after)%list /\
    Analytics.selected sid visitor = true /\
    Forall (fun u => Analytics.selected sid u = false) before /\
    Analytics.update_first utcnow sid referer rows
    = (before ++ Analytics.touch utcnow referer visitor :: after)%list.
Proof.
  induction rows as [| v rows IH]; cbn; [discriminate |].
  destruct (Analytics.selected sid v) eqn:Hv.
  - intros [= ->]. exists [], rows. cbn. repeat split; [exact Hv | constructor].
  - intros Hfind. destruct (IH Hfind) as (before & after & -> & Hsel & Hbefore & Hup).
    exists (v :: before), after. cbn. rewrite Hup.
    repeat split; [exact Hsel | constructor; assumption].
Qed.

Lemma track_rows (rows rows' : list (Analytics.VisitorLog Extra Time))
    (request : Analytics.Request) :
  Analytics.track faults utcnow rows request = Return rows' ->
  rows' = rows \/
  exists sid visitor,
    Analytics.cookie request "sgnl_session" = Some sid /\ sid <> "" /\
    Analytics.commit_fault faults = None /\
    List.find (Analytics.selected sid) rows = Some visitor /\
    rows' = Analytics.update_first utcnow sid
              (default "" (Analytics.header request "referer")) rows.
Proof.
  unfold Analytics.track.
  destruct (Analytics.cookie request "sgnl_session") as [[| c r] |] eqn:Hc;
    try (intros [= <-]; left; reflexivity).
  destruct (Analytics.query_fault faults); [discriminate |].
  destruct (List.find _ rows) as [visitor |] eqn:Hfind; [| intros [= <-]; left; reflexivity].
  destruct (Analytics.commit_fault faults) eqn:Hcommit; [discriminate |].
  intros [= <-]. right. exists (String c r), visitor.
  repeat split; [discriminate | exact Hfind].
Qed.

Lemma dispatch_stored (rows : list (Analytics.VisitorLog Extra Time))
    (request : Analytics.Request) :
  Analytics.stored (Analytics.dispatch faults utcnow call_next rows request) = rows \/
  exists rows', Analytics.track faults utcnow rows request = Return rows' /\
    Analytics.stored (Analytics.dispatch faults utcnow call_next rows request) = rows'.
Proof.
  unfold Analytics.dispatch.
  destruct (Analytics.session_fault faults); [left; reflexivity |].
  destruct (Analytics.track faults utcnow rows request) as [rows' | msg];
    [| left; reflexivity].
  right. exists rows'. split; [reflexivity |].
  destruct (call_next 0%nat); reflexivity.
Qed.

End DispatchFacts.

(** X18. Once the database session is open, what [dispatch] answers is
    always an outcome of the downstream handler: a fault of the visitor
    bookkeeping (query or commit) never reaches the client.  The handler
    runs once, or twice: the second run happens exactly when the
    bookkeeping went through and the first run raised.  The session is
    closed in every case. *)
Theorem X18_dispatch_answers_with_the_handler
    {Extra Time Response : Type} (faults : Analytics.Faults) (utcnow : Time)
    (call_next : nat -> Outcome Response)
    (rows : list (Analytics.VisitorLog Extra Time)) (request : Analytics.Request) :
  Analytics.session_fault faults = None ->
  let served := Analytics.dispatch faults utcnow call_next rows request in
  Analytics.session_closed served = true /\
  Analytics.response served = call_next (Nat.pred (Analytics.handler_calls served)) /\
  (forall r, call_next 0%nat = Return r ->
     Analytics.response served = Return r /\ Analytics.handler_calls served = 1%nat) /\
  (Analytics.handler_calls served = 1%nat \/ Analytics.handler_calls served = 2%nat) /\
  (Analytics.handler_calls served = 2%nat <->
     (exists msg, call_next 0%nat = Raise msg) /\
     (exists rows', Analytics.track faults utcnow rows request = Return rows')).
Proof.
  intros Hsession. cbv zeta. unfold Analytics.dispatch. rewrite Hsession.
  destruct (Analytics.track faults utcnow rows request) as [rows' | msg] eqn:Htrack.
  - destruct (call_next 0%nat) as [r | msg] eqn:Hnext; cbn.
    + split; [reflexivity |]. split; [symmetry; exact Hnext |].
      split; [intros r' [= ->]; split; reflexivity |].
      split; [left; reflexivity |].
      split; [discriminate | intros [[msg Hmsg] _]; discriminate].
    + split; [reflexivity |]. split; [reflexivity |].
      split; [discriminate |].
      split; [right; reflexivity |].
      split; [intros _; split; eauto | reflexivity].
  - cbn. split; [reflexivity |]. split; [reflexivity |].
    split; [intros r Hr; split; [exact Hr | reflexivity] |].
    split; [left; reflexivity |].
    split; [discriminate | intros [_ [rows' Hrows']]; discriminate].
Qed.

Lemma X18_dispatch_answers_with_the_handler_witness :
  let faults := Analytics.mkFaults None None (Some "database is locked") in
  let call_next := fun k : nat => Return (200 + Z.of_nat k) in
  let rows := [Analytics.mkVisitorLog "abc" true 5%nat None tt] in
  let request :=
    Analytics.mkRequest (fun _ => None)
      (fun name => if String.eqb name "sgnl_session" then Some "abc" else None) None in
  Analytics.session_fault faults = None /\
  Analytics.response (Analytics.dispatch faults 9%nat call_next rows request) = Return 200 /\
  Analytics.stored (Analytics.dispatch faults 9%nat call_next rows request) = rows.
Proof.
  cbv zeta. split; [reflexivity |]. split; [| reflexivity].
  refine (proj1 (proj1 (proj2 (proj2
    (X18_dispatch_answers_with_the_handler
       (Analytics.mkFaults None None (Some "database is locked")) 9%nat
       (fun k : nat => Return (200 + Z.of_nat k))
       [Analytics.mkVisitorLog "abc" true 5%nat None tt]
       (Analytics.mkRequest (fun _ => None)
          (fun name => if String.eqb name "sgnl_session" then Some "abc" else None) None)
       eq_refl))) 200 eq_refl)).
Defined.

(** X19. What [dispatch] changes in the visitor table is at most one row:
    the first active row of the session named by the [sgnl_session] cookie.
    Of that row only the time of the last activity is set, and the referrer
    when the row had none and the request carries one; a referrer already
    stored is never overwritten, and the rows before and after are left as
    they were. *)
Theorem X19_dispatch_touches_one_row
    {Extra Time Response : Type} (faults : Analytics.Faults) (utcnow : Time)
    (call_next : nat -> Outcome Response)
    (rows : list (Analytics.VisitorLog Extra Time)) (request : Analytics.Request) :
  let served := Analytics.dispatch faults utcnow call_next rows request in
  Analytics.stored served = rows \/
  exists sid before visitor visitor' after,
    Analytics.cookie request "sgnl_session" = Some sid /\ sid <> "" /\
    rows = (before ++ visitor :: after)%list /\
    Analytics.selected sid visitor = true /\
    Forall (fun u => Analytics.selected sid u = false) before /\
    Analytics.stored served = (before ++ visitor' :: after)%list /\
    refreshed utcnow (default "" (Analytics.header request "referer")) visitor visitor'.
Proof.
  cbv zeta.
  destruct (dispatch_stored faults utcnow call_next rows request) as [H | (rows' & Htrack & H)];
    [left; exact H |].
  rewrite H. destruct (track_rows faults utcnow rows rows' request Htrack)
    as [-> | (sid & visitor & Hc & Hsid & _ & Hfind & ->)]; [left; reflexivity |].
  right.
  destruct (update_first_found utcnow sid (default "" (Analytics.header request "referer"))
              rows visitor Hfind) as (before & after & Hrows & Hsel & Hbefore & Hup).
  exists sid, before, visitor,
    (Analytics.touch utcnow (default "" (Analytics.header request "referer")) visitor), after.
  repeat split; try assumption; try apply touch_refreshed.
  all: try (destruct (touch_refreshed utcnow (default "" (Analytics.header request "referer")) visitor)
              as (? & ? & ? & ? & ?); assumption).
Qed.

(** ** The benchmark *)

Section TallyFacts.
Context {A : Arith}.

Lemma run_workers_snoc (attempts : list (@Benchmark.Attempt A)) (attempt : Benchmark.Attempt) :
  Benchmark.run_workers (attempts ++ [attempt])
  = Benchmark.request_worker attempt (Benchmark.run_workers attempts).
Proof. unfold Benchmark.run_workers. rewrite fold_left_app. reflexivity. Qed.

(** the counters and the error list after one more turn *)
Lemma request_worker_counts (attempt : @Benchmark.Attempt A) (t : Benchmark.Tally) :
  let t' := Benchmark.request_worker attempt t in
  Benchmark.total_requests t' = Benchmark.total_requests t + 1 /\
  Benchmark.successful_requests t'
  = Benchmark.successful_requests t + (if succeeded attempt then 1 else 0) /\
  Benchmark.failed_requests t'
  = Benchmark.failed_requests t + (if succeeded attempt then 0 else 1) /\
  length (Benchmark.errors t')
  = (length (Benchmark.errors t) + (if succeeded attempt then 0 else 1))%nat.
Proof.
  cbv zeta. unfold Benchmark.request_worker, Benchmark.make_request.
  destruct attempt as [status_code req_latency | msg]; cbn [succeeded].
  - destruct (status_code <? 400);
      destruct (ltb A (of_int A 0) req_latency); cbn;
      rewrite ?List.length_app; cbn [length]; repeat split; lia.
  - destruct (ltb A (of_int A 0) (lit A 0 1)); cbn;
      rewrite ?List.length_app; cbn [length]; repeat split; lia.
Qed.

Lemma run_workers_counts (attempts : list (@Benchmark.Attempt A)) :
  let t := Benchmark.run_workers attempts in
  Benchmark.total_requests t = Z.of_nat (length attempts) /\
  Benchmark.successful_requests t = Z.of_nat (length (List.filter succeeded attempts)) /\
  Benchmark.failed_requests t = Z.of_nat (length (Benchmark.errors t)) /\
  Benchmark.total_requests t
  = Benchmark.successful_requests t + Benchmark.failed_requests t.
Proof.
  cbv zeta. induction attempts as [| attempt attempts IH] using rev_ind.
  - cbn. repeat split.
  - rewrite run_workers_snoc.
    destruct (request_worker_counts attempt (Benchmark.run_workers attempts))
      as (Ht & Hs & Hf & He).
    destruct IH as (IHt & IHs & IHf & IHsum).
    rewrite Ht, Hs, Hf, He, List.filter_app, !List.length_app. cbn [List.filter].
    destruct (succeeded attempt); cbn [length]; repeat split; lia.
Qed.

End TallyFacts.

(** X20. The counters of [benchmark_endpoint] stay consistent whatever the
    requests come to: every attempt is counted once, as a success (status
    below 400) or as a failure; each failure leaves one error message; and
    the result reports the first ten messages at most. *)
Theorem X20_benchmark_counters_are_consistent
    (A : Arith) (attempts : list (@Benchmark.Attempt A)) :
  let t := Benchmark.run_workers attempts in
  let result := Benchmark.benchmark_endpoint attempts in
  Benchmark.result_total_requests result = Z.of_nat (length attempts) /\
  Benchmark.result_successful_requests result
  = Z.of_nat (length (List.filter succeeded attempts)) /\
  Benchmark.result_total_requests result
  = Benchmark.result_successful_requests result + Benchmark.result_failed_requests result /\
  Benchmark.result_failed_requests result = Z.of_nat (length (Benchmark.errors t)) /\
  Z.of_nat (length (Benchmark.result_errors result))
  = Z.min 10 (Benchmark.result_failed_requests result).
Proof.
  cbv zeta. unfold Benchmark.benchmark_endpoint. cbn.
  destruct (run_workers_counts attempts) as (Ht & Hs & Hf & Hsum).
  repeat split; try assumption.
  rewrite List.length_firstn, Hf. lia.
Qed.

(** X21. The latencies that [benchmark_endpoint] keeps for its statistics
    are those of the answered requests, failed ones (status 400 and above)
    included, in the order of completion, as long as they are above zero;
    an attempt that raised leaves none. *)
Theorem X21_benchmark_keeps_answered_latencies
    (attempts : list (@Benchmark.Attempt B64.arith)) :
  Benchmark.latencies (Benchmark.run_workers attempts)
  = omap positive_latency attempts.
Proof.
  induction attempts as [| attempt attempts IH] using rev_ind; [reflexivity |].
  rewrite run_workers_snoc, omap_app. cbn [omap list_omap].
  unfold Benchmark.request_worker, Benchmark.make_request.
  destruct attempt as [status_code req_latency | msg]; cbn [positive_latency].
  - change (B64.of_Z 0) with (S754_zero false).
    destruct (status_code <? 400); cbn;
      destruct (SFltb (S754_zero false) req_latency);
      cbn; rewrite IH, ?app_nil_r; reflexivity.
  - cbn. rewrite IH, app_nil_r. reflexivity.
Qed.

(** X22. The success rate that [print_result] prints divides by the number
    of requests: it fails with a division by zero exactly for a benchmark
    in which no request completed. *)
Theorem X22_success_rate_fails_iff_no_request
    (A : Arith) (attempts : list (@Benchmark.Attempt A)) :
  @Benchmark.success_rate A (Benchmark.benchmark_endpoint attempts) = Raise "division by zero"
  <-> attempts = [].
Proof.
  unfold Benchmark.success_rate, Benchmark.benchmark_endpoint. cbn.
  destruct (run_workers_counts attempts) as (Ht & _). rewrite Ht.
  destruct attempts as [| a attempts]; cbn [length]; [split; reflexivity |].
  destruct (Z.of_nat (S (length attempts)) =? 0) eqn:E; [apply Z.eqb_eq in E; lia |].
  split; discriminate.
Qed.

(** ** The profiler *)

Section ProfilerFacts.
Context {A : Arith}.

Lemma timer_exit_lookup (name : string) (elapsed : num A) (timings : gmap string (list (num A)))
    (key : string) :
  Profiler.timer_exit name elapsed timings !! key
  = if String.eqb name key
    then Some (default [] (timings !! name) ++ [elapsed])%list
    else timings !! key.
Proof.
  unfold Profiler.timer_exit.
  destruct (String.eqb_spec name key) as [<- | Hne].
  - destruct (timings !! name) as [times |] eqn:E; cbv beta iota zeta.
    + rewrite lookup_alter_eq, E. reflexivity.
    + rewrite lookup_alter_eq, lookup_insert_eq. reflexivity.
  - destruct (timings !! name); cbv beta iota zeta;
      rewrite lookup_alter_ne by exact Hne; [reflexivity |].
    apply lookup_insert_ne. exact Hne.
Qed.

Lemma record_from_lookup (exits : list (string * num A)) (timings : gmap string (list (num A)))
    (name : string) :
  fold_left (fun t e => Profiler.timer_exit (fst e) (snd e) t) exits timings !! name
  = match times_of name exits with
    | [] => timings !! name
    | times => Some (default [] (timings !! name) ++ times)%list
    end.
Proof.
  revert timings. induction exits as [| [n elapsed] exits IH]; intros timings; [reflexivity |].
  cbn [fold_left fst snd]. rewrite IH, timer_exit_lookup.
  unfold times_of. cbn [List.filter fst]. destruct (String.eqb_spec n name) as [-> | Hne].
  - cbn [List.map snd]. fold (times_of name exits).
    destruct (times_of name exits) as [| t times]; cbn; [reflexivity |].
    rewrite <- List.app_assoc. reflexivity.
  - reflexivity.
Qed.

Lemma record_lookup (exits : list (string * num A)) (name : string) :
  Profiler.record exits !! name
  = match times_of name exits with
    | [] => None
    | times => Some times
    end.
Proof.
  unfold Profiler.record. rewrite record_from_lookup, lookup_empty. reflexivity.
Qed.

Lemma times_of_nil (exits : list (string * num A)) (name : string) :
  times_of name exits = [] <-> name ∉ exits.*1.
Proof.
  unfold times_of. induction exits as [| [n elapsed] exits IH]; cbn [List.filter fst].
  - split; [intros _; apply not_elem_of_nil | reflexivity].
  - rewrite fmap_cons, not_elem_of_cons. cbn [fst].
    destruct (String.eqb_spec n name) as [-> | Hne]; cbn [List.map].
    + split; [discriminate | intros [H _]; contradiction].
    + rewrite IH. split; [intros H; split; [congruence | exact H] | intros [_ H]; exact H].
Qed.

Lemma rows_of_nonempty (items : list (string * list (num A))) :
  Forall (fun item => snd item <> []) items ->
  exists rows, Profiler.rows_of items = Return rows /\
    Forall2 (fun item row => Profiler.operation row = fst item /\
                             Profiler.calls row = length (snd item)) items rows.
Proof.
  induction 1 as [| [name times] items Hne _ (rows & Hrows & Hall)].
  - exists []. split; [reflexivity | constructor].
  - cbn in Hne. destruct times as [| first rest]; [congruence |].
    cbn. rewrite Hrows. cbn. eexists. split; [reflexivity |].
    constructor; [split; reflexivity | exact Hall].
Qed.

Lemma rows_of_return (items : list (string * list (num A))) (rows : list (@Profiler.Row A)) :
  Profiler.rows_of items = Return rows -> Forall (fun item => snd item <> []) items.
Proof.
  revert rows. induction items as [| [name times] items IH]; intros rows; [constructor |].
  cbn. destruct times as [| first rest]; [discriminate |]. cbn.
  destruct (Profiler.rows_of items) as [rows' | msg]; [| discriminate].
  intros _. constructor; [discriminate | exact (IH rows' eq_refl)].
Qed.

Lemma sorted_items (timings : gmap string (list (num A))) (name : string) (times : list (num A)) :
  (name, times) ∈ merge_sort Profiler.by_name (map_to_list timings)
  <-> timings !! name = Some times.
Proof. rewrite merge_sort_Permutation. apply elem_of_map_to_list. Qed.

Lemma summary_returns_iff (timings : gmap string (list (num A))) :
  (exists rows, Profiler.print_summary timings = Return rows)
  <-> forall name, timings !! name <> Some [].
Proof.
  unfold Profiler.print_summary. split.
  - intros [rows Hrows] name Hname.
    apply rows_of_return in Hrows. rewrite Forall_forall in Hrows.
    apply sorted_items in Hname. exact (Hrows _ Hname eq_refl).
  - intros Hall.
    destruct (rows_of_nonempty (merge_sort Profiler.by_name (map_to_list timings)))
      as (rows & Hrows & _); [| exists rows; exact Hrows].
    apply Forall_forall. intros [name times] Hin Hnil. cbn in Hnil. subst times.
    apply sorted_items in Hin. exact (Hall name Hin).
Qed.

Lemma by_name_total : Total (@Profiler.by_name A).
Proof. intros x y. apply String.leb_total. Qed.

Lemma forall2_names (items : list (string * list (num A))) (rows : list (@Profiler.Row A)) :
  Forall2 (fun item row => Profiler.operation row = fst item /\
                           Profiler.calls row = length (snd item)) items rows ->
  Profiler.operation <$> rows = items.*1.
Proof.
  induction 1 as [| item row items rows [Hop _] _ IH]; [reflexivity |].
  rewrite !fmap_cons, Hop, IH. reflexivity.
Qed.

Lemma rows_of_raise (items : list (string * list (num A))) (msg : string) :
  Profiler.rows_of items = Raise msg ->
  msg = "division by zero" /\ exists name, (name, []) ∈ items.
Proof.
  induction items as [| [name times] items IH]; [discriminate |].
  cbn. destruct times as [| first rest].
  - cbn. intros [= <-]. split; [reflexivity |]. exists name. apply list_elem_of_here.
  - cbn. destruct (Profiler.rows_of items) as [rows' | msg']; [discriminate |].
    cbn. intros [= <-]. destruct (IH eq_refl) as [Hmsg [n Hn]].
    split; [exact Hmsg |]. exists n. apply list_elem_of_further. exact Hn.
Qed.

Lemma forall2_rows {P : string * list (num A) -> Prop} {Q : @Profiler.Row A -> Prop}
    (items : list (string * list (num A))) (rows : list (@Profiler.Row A)) :
  Forall2 (fun item row => Profiler.operation row = fst item /\
                           Profiler.calls row = length (snd item)) items rows ->
  Forall P items ->
  (forall item row, Profiler.operation row = fst item ->
     Profiler.calls row = length (snd item) -> P item -> Q row) ->
  Forall Q rows.
Proof.
  intros Hall Hitems Hstep. induction Hall as [| item row items rows [Hop Hcalls] _ IH].
  - constructor.
  - inversion Hitems as [| ? ? Hitem Hrest]; subst.
    constructor; [exact (Hstep item row Hop Hcalls Hitem) | exact (IH Hrest)].
Qed.

Lemma recorded_items (exits : list (string * num A)) (name : string) (times : list (num A)) :
  Profiler.record exits !! name = Some times ->
  times = times_of name exits /\ times <> [].
Proof.
  rewrite record_lookup. destruct (times_of name exits) as [| t rest]; [discriminate |].
  intros [= <-]. split; [reflexivity | discriminate].
Qed.

End ProfilerFacts.

(** X23. The profiler keeps, for each name, the times elapsed of the timers
    of that name in the order in which they exited, and keeps nothing for a
    name that no timer used: no name is ever stored with an empty list. *)
Theorem X23_profiler_keeps_times_per_name
    (A : Arith) (exits : list (string * num A)) (name : string) :
  Profiler.record exits !! name
  = match times_of name exits with
    | [] => None
    | times => Some times
    end.
Proof. apply record_lookup. Qed.

(** X24. [print_summary] divides the total of each entry by the number of
    its times.  It prints its table only when no name is stored with an
    empty list; otherwise it fails, with a division by zero, and some name
    is stored with an empty list. *)
Theorem X24_summary_needs_nonempty_entries
    (A : Arith) (timings : gmap string (list (num A))) :
  match Profiler.print_summary timings with
  | Return rows => forall name, timings !! name <> Some []
  | Raise msg => msg = "division by zero" /\ exists name, timings !! name = Some []
  end.
Proof.
  destruct (Profiler.print_summary timings) as [rows | msg] eqn:E.
  - apply summary_returns_iff. exists rows. exact E.
  - unfold Profiler.print_summary in E. apply rows_of_raise in E as [Hmsg [name Hname]].
    split; [exact Hmsg |]. exists name. apply sorted_items in Hname. exact Hname.
Qed.

(** X25. A profiler that was only fed through its timers always prints its
    summary: one line per name that a timer used, the names in ascending
    order and without repetition, and on each line the number of timers of
    that name that exited, which is at least one. *)
Theorem X25_summary_of_recorded_timers (A : Arith) (exits : list (string * num A)) :
  exists rows,
    Profiler.print_summary (Profiler.record exits) = Return rows /\
    Sorted (fun a b => String.leb a b = true) (Profiler.operation <$> rows) /\
    NoDup (Profiler.operation <$> rows) /\
    (forall name, name ∈ Profiler.operation <$> rows <-> name ∈ exits.*1) /\
    Forall (fun row =>
              Profiler.calls row = length (times_of (Profiler.operation row) exits) /\
              (0 < Profiler.calls row)%nat) rows.
Proof.
  unfold Profiler.print_summary.
  set (items := merge_sort Profiler.by_name (map_to_list (Profiler.record exits))).
  assert (Hitems : Forall (fun item => snd item = times_of (fst item) exits /\ snd item <> [])
                     items).
  { apply Forall_forall. intros [name times] Hin. apply sorted_items in Hin.
    exact (recorded_items exits name times Hin). }
  destruct (rows_of_nonempty items) as (rows & Hrows & Hall).
  { eapply Forall_impl; [exact Hitems |]. intros item [_ H]. exact H. }
  exists rows. split; [exact Hrows |].
  rewrite (forall2_names items rows Hall).
  split; [| split; [| split]].
  - apply (Sorted_fmap fst Profiler.by_name); [intros x y H; exact H |].
    apply (Sorted_merge_sort Profiler.by_name (Total0 := by_name_total)).
  - unfold items. rewrite merge_sort_Permutation. apply NoDup_fst_map_to_list.
  - intros name. rewrite list_elem_of_fmap. split.
    + intros ([n times] & -> & Hin). apply sorted_items in Hin.
      destruct (recorded_items exits n times Hin) as [Htimes Hne].
      destruct (decide (n ∈ exits.*1)) as [H | H]; [exact H |].
      apply times_of_nil in H. cbn in Htimes. congruence.
    + intros Hin. destruct (times_of name exits) as [| t rest] eqn:Htimes.
      * apply times_of_nil in Htimes. contradiction.
      * exists (name, t :: rest). split; [reflexivity |].
        apply sorted_items. rewrite record_lookup, Htimes. reflexivity.
  - apply (forall2_rows items rows Hall Hitems).
    intros [name times] row Hop Hcalls [Htimes Hne]. cbn in *.
    rewrite Hop, Hcalls, <- Htimes. split; [reflexivity |].
    destruct times; [congruence | cbn; lia].
Qed.
